(** * Desk/scanner pairing: session registry, scan handshake and scanner client

    A shallow embedding of
    - [backend/controllers/desk.controller.ts] (module [Registry]): the
      in-memory table of desk sessions with creation, validation, refresh and
      the periodic sweep;
    - the scan handshake of the pairing relay (module [Relay]);
    - [frontend/src/pages/Scanner.tsx] (module [Scanner]): the event handlers
      of the scanner page.

    Conventions.  Times are milliseconds since the epoch, as [Date.now()]
    returns them, and are integers ([Z]).  Every call of [Date.now()] is an
    input of the embedded function, one argument per call site.  The session
    table [deskSessions] is a [Map<string, DeskSession>]; it is a
    [gmap string DeskSession] here.  Calls of the winston logger append to a
    log kept next to the table. *)

From Stdlib Require Import ZArith NArith Ascii String List Lia.
From stdpp Require Import base decidable option list gmap strings fin_maps.
From stdpp Require Import pretty.

Local Open Scope Z_scope.
Local Open Scope string_scope.
Local Open Scope list_scope.

(** ** JavaScript values that travel in payloads *)

(** The result of [JSON.parse], and the [uniqueId] of a [scan-participant]
    payload: a JSON value (numbers are kept to the integers). *)
#[local] Set Warnings "-register-all".
Inductive Json : Type :=
| JNull
| JBool (b : bool)
| JNum (n : Z)
| JStr (s : string)
| JArr (items : list Json)
| JObj (fields : list (string * Json)).

#[local] Set Warnings "register-all".

(** [v.key] for a parsed value [v] other than [null]: own properties of an
    object; [undefined] ([None]) on anything else.  ([null.key] throws, the
    callers handle [JNull] before they get here.) *)
Fixpoint assoc_field (key : string) (fields : list (string * Json)) : option Json :=
  match fields with
  | [] => None
  | (k, v) :: rest =>
      (* a later duplicate key overrides an earlier one in JSON.parse *)
      match assoc_field key rest with
      | Some v' => Some v'
      | None => if String.eqb k key then Some v else None
      end
  end.

Definition get_prop (v : Json) (key : string) : option Json :=
  match v with
  | JObj fields => assoc_field key fields
  | _ => None
  end.

(** JavaScript truthiness of a property read ([None] is [undefined]). *)
Definition truthy (v : option Json) : bool :=
  match v with
  | None => false
  | Some JNull => false
  | Some (JBool b) => b
  | Some (JNum n) => negb (Z.eqb n 0)
  | Some (JStr s) => negb (String.eqb s "")
  | Some (JArr _) => true
  | Some (JObj _) => true
  end.

(** ** The session registry: [desk.controller.ts] *)

Module Registry.

(** [interface DeskSession] *)
Record DeskSession : Type := mkDeskSession {
  deskId : string;
  signature : string;
  createdAt : Z;
  expiresAt : Z
}.

(** [const SESSION_EXPIRY = 30 * 60 * 1000] *)
Definition SESSION_EXPIRY : Z := 30 * 60 * 1000.

(** The period given to [setInterval] for the sweep. *)
Definition SWEEP_INTERVAL : Z := 60000.

(** *** The logger *)

Inductive Level : Type := Info | Warn | Error.

(** One call [logger.level(message, { particular, deskId })]. *)
Record LogEntry : Type := mkLog {
  level : Level;
  message : string;
  particular : string;
  subject : option string
}.

(** *** The module state and its monad *)

Record World : Type := mkWorld {
  deskSessions : gmap string DeskSession;
  logged : list LogEntry
}.

Definition M (A : Type) : Type := World -> A * World.

Definition ret {A} (a : A) : M A := fun w => (a, w).

Definition bind {A B} (m : M A) (k : A -> M B) : M B :=
  fun w => let (a, w') := m w in k a w'.

Declare Scope registry_scope.
Delimit Scope registry_scope with reg.
Notation "'let*' x ':=' m 'in' k" := (bind m (fun x => k))
  (at level 10, x name, m at level 100, k at level 200) : registry_scope.
Notation "m ;; k" := (bind m (fun _ => k))
  (at level 100, k at level 200, right associativity) : registry_scope.
Local Open Scope registry_scope.

(** [deskSessions.get(id)] *)
Definition getSession (id : string) : M (option DeskSession) :=
  fun w => (deskSessions w !! id, w).

(** [deskSessions.set(id, s)] *)
Definition setSession (id : string) (s : DeskSession) : M unit :=
  fun w => (tt, mkWorld (<[id := s]> (deskSessions w)) (logged w)).

(** [deskSessions.delete(id)] *)
Definition deleteSession (id : string) : M unit :=
  fun w => (tt, mkWorld (delete id (deskSessions w)) (logged w)).

Definition log (l : Level) (msg part : string) (who : option string) : M unit :=
  fun w => (tt, mkWorld (deskSessions w) (logged w ++ [mkLog l msg part who])).

(** *** Random bytes and their hexadecimal form *)

(** The system's random source, as the stream of bytes it will deliver. *)
Definition Entropy : Type := nat -> Byte.byte.

(** [crypto.randomBytes(n)]: the next [n] bytes, and the rest of the stream. *)
Definition randomBytes (n : nat) (src : Entropy) : list Byte.byte * Entropy :=
  (List.map src (seq 0 n), fun i => src (n + i)%nat).

Definition hexDigit (n : N) : ascii :=
  match n with
  | 0 => "0" | 1 => "1" | 2 => "2" | 3 => "3" | 4 => "4" | 5 => "5"
  | 6 => "6" | 7 => "7" | 8 => "8" | 9 => "9" | 10 => "a" | 11 => "b"
  | 12 => "c" | 13 => "d" | 14 => "e" | _ => "f"
  end%N%char.

(** [buf.toString('hex')]: two lower-case digits per byte, high nibble first. *)
Fixpoint toString_hex (buf : list Byte.byte) : string :=
  match buf with
  | [] => EmptyString
  | b :: rest =>
      let n := Byte.to_N b in
      String (hexDigit (n / 16)) (String (hexDigit (n mod 16)) (toString_hex rest))
  end.

Definition isHexDigit (c : ascii) : bool :=
  let n := N_of_ascii c in
  ((48 <=? n) && (n <=? 57) || (97 <=? n) && (n <=? 102))%N.

Fixpoint allHex (s : string) : bool :=
  match s with
  | EmptyString => true
  | String c rest => isHexDigit c && allHex rest
  end.

(** Reading a hexadecimal string back into bytes: the inverse of
    [toString_hex], used to state that the string loses none of the bits. *)
Definition unhexDigit (c : ascii) : option N :=
  let n := N_of_ascii c in
  if ((48 <=? n) && (n <=? 57))%N then Some (n - 48)%N
  else if ((97 <=? n) && (n <=? 102))%N then Some (n - 87)%N
  else None.

Fixpoint fromHex (s : string) : option (list Byte.byte) :=
  match s with
  | EmptyString => Some []
  | String h (String l rest) =>
      match unhexDigit h, unhexDigit l, fromHex rest with
      | Some hi, Some lo, Some bytes =>
          match Byte.of_N (16 * hi + lo) with
          | Some b => Some (b :: bytes)
          | None => None
          end
      | _, _, _ => None
      end
  | String _ EmptyString => None
  end.

(** *** HTTP responses *)

Inductive ResponseData : Type :=
| SessionData (deskId signature : string) (expiresIn : Z)
| RefreshData (expiresIn : Z).

(** The object given to [res.json]. *)
Record ResponseBody : Type := mkBody {
  success : bool;
  resMessage : option string;
  data : option ResponseData
}.

(** [res.status(code).json(body)] *)
Record Response : Type := mkResponse {
  status : Z;
  json : ResponseBody
}.

(** [req.body] of a refresh request. *)
Record RefreshBody : Type := mkRefreshBody {
  body_deskId : string;
  body_signature : string
}.

(** *** The periodic sweep *)

(** One iteration of the [for ... of deskSessions.entries()] loop. *)
Definition sweepStep (now : Z) (acc : gmap string DeskSession)
    (entry : string * DeskSession) : gmap string DeskSession :=
  if decide (expiresAt entry.2 < now) then delete entry.1 acc else acc.

(** The loop: the entries are those of the table when the loop starts (an
    entry deleted by the loop is the one being visited). *)
Definition sweepTable (now : Z) (table : gmap string DeskSession)
    : gmap string DeskSession :=
  foldl (sweepStep now) table (map_to_list table).

(** The callback of [setInterval]. *)
Definition sweep (now : Z) : M unit :=
  fun w => (tt, mkWorld (sweepTable now (deskSessions w)) (logged w)).

(** *** [createDeskSession] *)

Definition createDeskSession (src : Entropy) (now : Z) : M Response :=
  log Info "Creating new desk session" "create_desk_session" None ;;
  let (idBytes, src') := randomBytes 16 src in
  let id := toString_hex idBytes in
  let (sigBytes, _) := randomBytes 32 src' in
  let sig := toString_hex sigBytes in
  let session := mkDeskSession id sig now (now + SESSION_EXPIRY) in
  setSession id session ;;
  log Info "Desk session created successfully" "create_desk_session_success" (Some id) ;;
  ret (mkResponse 200
         (mkBody true None (Some (SessionData id sig SESSION_EXPIRY)))).

(** *** [validateDeskSession] *)

Definition validateDeskSession (now : Z) (id sig : string) : M bool :=
  let* session := getSession id in
  match session with
  | None =>
      log Warn "Desk session validation failed - session not found"
          "validate_desk_session_not_found" (Some id) ;;
      ret false
  | Some s =>
      if decide (expiresAt s < now) then
        deleteSession id ;;
        log Warn "Desk session validation failed - session expired"
            "validate_desk_session_expired" (Some id) ;;
        ret false
      else
        let isValid := bool_decide (signature s = sig) in
        (if isValid
         then log Info "Desk session validated successfully"
                  "validate_desk_session_success" (Some id)
         else log Warn "Desk session validation failed - invalid signature"
                  "validate_desk_session_invalid_signature" (Some id)) ;;
        ret isValid
  end.

(** *** [refreshDeskSession] *)

(** [tv] is the clock read inside [validateDeskSession], [tr] the one read
    when the expiry is reset.  The session object fetched from the table is
    the stored one, so assigning its [expiresAt] already updates the table;
    the [set] that follows stores the same object again.  Nothing in the
    [try] block throws for a body with two string fields, so the [catch]
    branch (status 500) is not taken. *)
Definition refreshDeskSession (tv tr : Z) (body : RefreshBody) : M Response :=
  let id := body_deskId body in
  let sig := body_signature body in
  log Info "Attempting to refresh desk session" "refresh_desk_session" (Some id) ;;
  let* ok := validateDeskSession tv id sig in
  if negb ok then
    log Warn "Refresh desk session failed - invalid or expired session"
        "refresh_desk_session_invalid" (Some id) ;;
    ret (mkResponse 401
           (mkBody false (Some "Invalid or expired desk session") None))
  else
    let* session := getSession id in
    match session with
    | Some s =>
        setSession id
          (mkDeskSession (deskId s) (signature s) (createdAt s) (tr + SESSION_EXPIRY))
    | None => ret tt
    end ;;
    log Info "Desk session refreshed successfully" "refresh_desk_session_success" (Some id) ;;
    ret (mkResponse 200
           (mkBody true (Some "Session refreshed") (Some (RefreshData SESSION_EXPIRY)))).

(** *** The handlers read on the table alone *)

(** What [validateDeskSession] computes from the table alone: its result
    and the table it leaves. *)
Definition validateOutcome (now : Z) (id sig : string)
    (t : gmap string DeskSession) : bool * gmap string DeskSession :=
  match t !! id with
  | None => (false, t)
  | Some s =>
      if decide (expiresAt s < now) then (false, delete id t)
      else (bool_decide (signature s = sig), t)
  end.

Definition refreshed (tr : Z) (s : DeskSession) : DeskSession :=
  mkDeskSession (deskId s) (signature s) (createdAt s) (tr + SESSION_EXPIRY).

Definition unauthorized : Response :=
  mkResponse 401 (mkBody false (Some "Invalid or expired desk session") None).

Definition refreshedOk : Response :=
  mkResponse 200
    (mkBody true (Some "Session refreshed") (Some (RefreshData SESSION_EXPIRY))).

(** What [refreshDeskSession] computes from the table alone. *)
Definition refreshOutcome (tv tr : Z) (id sig : string)
    (t : gmap string DeskSession) : Response * gmap string DeskSession :=
  let (ok, t') := validateOutcome tv id sig t in
  if ok then
    (refreshedOk,
     match t' !! id with
     | Some s => <[id := refreshed tr s]> t'
     | None => t'
     end)
  else (unauthorized, t').

(** *** A table to run the handlers on *)

(** A session created at time 1000; it expires at 1801000. *)
Definition sampleSession : DeskSession :=
  mkDeskSession "d1" "s1" 1000 (1000 + SESSION_EXPIRY).

Definition sampleWorld : World :=
  mkWorld {[ "d1" := sampleSession ]} [].

(** A source of random bytes that counts up from zero. *)
Definition countingEntropy : Entropy :=
  fun i => match Byte.of_N (N.of_nat i mod 256) with
           | Some b => b
           | None => Byte.x00
           end.

End Registry.

(** ** The scan handshake of the pairing relay *)

Module Relay.

(** Modelled from the spec: the relay ([utils/socket.ts], started by
    [initializeSocket]) is not among the sources at hand.  The three states
    of the scan handshake of a session (section 4.3). *)
Inductive Handshake : Type := idle | awaiting_ack | paused.

(** Modelled from the spec: a live connection of the relay, named by a
    number. *)
Definition Connection : Type := nat.

(** Modelled from the spec: the messages the relay receives for one session
    once the senders have joined (sections 4.2 and 6): a scan from a scanner
    connection with its [uniqueId] payload, [ack-scan] and [resume] from the
    desk, and the loss of the desk connection. *)
Inductive Message : Type :=
| scan_participant (from : Connection) (uniqueId : Json)
| ack_scan
| resume
| desk_disconnect.

(** Modelled from the spec: what the relay delivers (section 6):
    [scan-received] to the desk only, the other three to all scanners of the
    session. *)
Inductive Delivery : Type :=
| scan_received (uniqueId : string)
| scan_acknowledged
| resume_scanning
| desk_disconnected.

(** Modelled from the spec: a participant id is valid when it is a
    non-empty string ("empty-string or non-string scan payloads never cause
    a state transition"). *)
Definition valid_id (uniqueId : Json) : option string :=
  match uniqueId with
  | JStr s => if String.eqb s "" then None else Some s
  | _ => None
  end.

(** Modelled from the spec: the transitions of section 4.3, which are all
    the transitions there are.  A scan is forwarded only in [idle] and only
    with a valid id; in [awaiting_ack] and in [paused] it is dropped.
    [ack-scan] in [awaiting_ack] forwards [scan-acknowledged] and moves to
    [paused]; [resume] in [paused] forwards [resume-scanning] and moves to
    [idle].  In the other states the two change nothing and deliver nothing:
    only [ack-scan] clears [awaiting_ack] and only [resume] clears [paused]
    (the effects of section 6), so that the scans that come before the
    [ack-scan] stay dropped (sections 4.3 and 8).  A desk disconnect is
    broadcast and changes no state. *)
Definition step (st : Handshake) (m : Message) : Handshake * list Delivery :=
  match m with
  | scan_participant _ uniqueId =>
      match st with
      | idle =>
          match valid_id uniqueId with
          | Some pid => (awaiting_ack, [scan_received pid])
          | None => (idle, [])
          end
      | awaiting_ack => (awaiting_ack, [])
      | paused => (paused, [])
      end
  | ack_scan =>
      match st with
      | awaiting_ack => (paused, [scan_acknowledged])
      | _ => (st, [])
      end
  | resume =>
      match st with
      | paused => (idle, [resume_scanning])
      | _ => (st, [])
      end
  | desk_disconnect => (st, [desk_disconnected])
  end.

(** Modelled from the spec: the messages of one session are processed one
    after the other (section 5); the deliveries are collected in order. *)
Fixpoint run (st : Handshake) (ms : list Message) : Handshake * list Delivery :=
  match ms with
  | [] => (st, [])
  | m :: rest =>
      let (st1, out1) := step st m in
      let (st2, out2) := run st1 rest in
      (st2, out1 ++ out2)
  end.

Definition is_scan (m : Message) : bool :=
  match m with scan_participant _ _ => true | _ => false end.


Definition is_resume (m : Message) : bool :=
  match m with resume => true | _ => false end.








End Relay.

(** ** The scanner page: [Scanner.tsx] *)

Module Scanner.

(** The socket.io client object held in [socketRef]. *)
Inductive Socket : Type := SocketIO.

(** The [Html5Qrcode] instance on the element [qr-reader] held in
    [scannerRef]. *)
Inductive Html5Qrcode : Type := QrReader.

(** The component: its React state (what is rendered) and its refs (what
    the handlers read).  [debugLogs] is left out: [addDebugLog] writes to
    the console and to that state, and nothing reads either. *)
Record Client : Type := mkClient {
  connected : bool;
  scanning : bool;
  paused : bool;
  lastScanned : option Json;
  manualInput : string;
  socketRef : option Socket;
  scannerRef : option Html5Qrcode;
  connectedRef : bool;
  pausedRef : bool;
  lastScanTsRef : Z
}.

(** The component when it is first rendered. *)
Definition initial : Client :=
  mkClient false false false None "" None None false false 0.

Definition setConnected (b : bool) (c : Client) : Client :=
  mkClient b (scanning c) (paused c) (lastScanned c) (manualInput c)
           (socketRef c) (scannerRef c) b (pausedRef c) (lastScanTsRef c).

Definition setScanning (b : bool) (c : Client) : Client :=
  mkClient (connected c) b (paused c) (lastScanned c) (manualInput c)
           (socketRef c) (scannerRef c) (connectedRef c) (pausedRef c) (lastScanTsRef c).

Definition setPaused (b : bool) (c : Client) : Client :=
  mkClient (connected c) (scanning c) b (lastScanned c) (manualInput c)
           (socketRef c) (scannerRef c) (connectedRef c) b (lastScanTsRef c).

Definition setLastScanned (v : Json) (c : Client) : Client :=
  mkClient (connected c) (scanning c) (paused c) (Some v) (manualInput c)
           (socketRef c) (scannerRef c) (connectedRef c) (pausedRef c) (lastScanTsRef c).

Definition setManualInput (s : string) (c : Client) : Client :=
  mkClient (connected c) (scanning c) (paused c) (lastScanned c) s
           (socketRef c) (scannerRef c) (connectedRef c) (pausedRef c) (lastScanTsRef c).

Definition setSocketRef (s : option Socket) (c : Client) : Client :=
  mkClient (connected c) (scanning c) (paused c) (lastScanned c) (manualInput c)
           s (scannerRef c) (connectedRef c) (pausedRef c) (lastScanTsRef c).

Definition setScannerRef (q : option Html5Qrcode) (c : Client) : Client :=
  mkClient (connected c) (scanning c) (paused c) (lastScanned c) (manualInput c)
           (socketRef c) q (connectedRef c) (pausedRef c) (lastScanTsRef c).

Definition setLastScanTs (t : Z) (c : Client) : Client :=
  mkClient (connected c) (scanning c) (paused c) (lastScanned c) (manualInput c)
           (socketRef c) (scannerRef c) (connectedRef c) (pausedRef c) t.

Inductive ToastKind : Type := Plain | Success | Failure.

(** What a handler does to the outside: messages sent on the socket, calls
    on the camera object, the timer it sets, toasts. *)
Inductive Effect : Type :=
| emit_join_scanner (deskId signature : string)
| emit_scan_participant (uniqueId : Json)
| camera_start
| camera_stop
| camera_clear
| set_timeout_startScanner (delay : Z)
| toast (kind : ToastKind) (msg : string).

(** What can happen to the mounted component.  The two [async] functions
    run up to their [await] when they are called; the rest of each runs
    when the camera's promise settles, which is an event of its own. *)
Inductive Event : Type :=
| scanner_joined
| scan_acknowledged (uniqueId : Json)
| resume_scanning
| desk_disconnected
| socket_error (message : string)
| timer_startScanner
| click_startScanner
| start_settled (err : option string)
| stop_settled (resolved : bool)
| camera_decoded (now : Z) (decodedText : string)
| input_changed (value : string)
| click_send.

Definition is_emit_scan (e : Effect) : bool :=
  match e with emit_scan_participant _ => true | _ => false end.

Definition is_camera_start (e : Effect) : bool :=
  match e with camera_start => true | _ => false end.

Definition is_camera_decoded (ev : Event) : bool :=
  match ev with camera_decoded _ _ => true | _ => false end.

Definition is_resume (ev : Event) : bool :=
  match ev with resume_scanning => true | _ => false end.

(** [!s] for a [string | null]. *)
Definition missing (s : option string) : bool :=
  match s with
  | None => true
  | Some v => String.eqb v ""
  end.

(** [parsed.type !== 'PARTICIPANT'] is false exactly on this. *)
Definition is_participant (v : option Json) : bool :=
  match v with
  | Some (JStr s) => String.eqb s "PARTICIPANT"
  | _ => false
  end.

Section Handlers.

(** Two functions of the JavaScript runtime: [JSON.parse] ([None] when it
    throws) and [String.prototype.trim]. *)
Variable JSON_parse : string -> option Json.
Variable trim : string -> string.

(** The socket set-up effect, run on mount with the two query
    parameters. *)
Definition mount (deskId signature : option string) (c : Client)
    : Client * list Effect :=
  if missing deskId || missing signature
  then (c, [toast Failure "Invalid scanner link"])
  else
    match deskId, signature with
    | Some d, Some s =>
        (setSocketRef (Some SocketIO) c, [emit_join_scanner d s])
    | _, _ => (c, [])
    end.

(** [startScanner], up to [await qr.start(...)]. *)
Definition startScanner (c : Client) : Client * list Effect :=
  match scannerRef c with
  | Some _ => (c, [])
  | None => (setScannerRef (Some QrReader) c, [camera_start])
  end.

(** [startScanner], after the [await]: the start resolved ([None]) or
    threw an error with the given message. *)
Definition startScanner_settled (err : option string) (c : Client)
    : Client * list Effect :=
  match err with
  | None => (setScanning true c, [toast Success "Camera started"])
  | Some m => (c, [toast Failure (String.append "Camera error: " m)])
  end.

(** [stopScanner], up to [await scannerRef.current.stop()]. *)
Definition stopScanner (c : Client) : Client * list Effect :=
  match scannerRef c with
  | None => (c, [])
  | Some _ => (c, [camera_stop])
  end.

(** [stopScanner], after the [await]: [clear()] is called when the stop
    resolved and the ref still holds an instance (anything else throws
    into the empty [catch]); then the ref and the flag are reset. *)
Definition stopScanner_settled (resolved : bool) (c : Client)
    : Client * list Effect :=
  (setScanning false (setScannerRef None c),
   match scannerRef c with
   | Some _ => if resolved then [camera_clear] else []
   | None => []
   end).

(** [onScanSuccess(decodedText)], with the clock it reads. *)
Definition onScanSuccess (now : Z) (decodedText : string) (c : Client)
    : Client * list Effect :=
  if decide (now - lastScanTsRef c < 1500) then (c, [])
  else
    let c1 := setLastScanTs now c in
    if pausedRef c1 then (c1, [])
    else if negb (connectedRef c1) || negb (bool_decide (is_Some (socketRef c1)))
    then (c1, [])
    else
      match JSON_parse decodedText with
      | None | Some JNull =>
          (* the parse, or the property read on null, throws:
             plain text fallback *)
          (c1, [emit_scan_participant (JStr (trim decodedText))])
      | Some parsed =>
          if negb (is_participant (get_prop parsed "type"))
             || negb (truthy (get_prop parsed "uniqueId"))
          then (c1, [toast Failure "Invalid participant QR"])
          else
            match get_prop parsed "uniqueId" with
            | Some uid => (c1, [emit_scan_participant uid])
            | None => (c1, [])
            end
      end.

(** The [onClick] of the Send button. *)
Definition sendManual (c : Client) : Client * list Effect :=
  if String.eqb (trim (manualInput c)) "" then (c, [])
  else
    (setManualInput "" c,
     match socketRef c with
     | Some _ => [emit_scan_participant (JStr (trim (manualInput c)))]
     | None => []
     end).

(** One event, handled to completion. *)
Definition step (c : Client) (ev : Event) : Client * list Effect :=
  match ev with
  | scanner_joined =>
      (setConnected true c, [set_timeout_startScanner 400])
  | scan_acknowledged uniqueId =>
      let c1 := setPaused true (setLastScanned uniqueId c) in
      let (c2, out) := stopScanner c1 in
      (c2, out ++ [toast Plain "Waiting for desk to clear…"])
  | resume_scanning =>
      startScanner (setPaused false c)
  | desk_disconnected =>
      (setConnected false c, [toast Failure "Desk disconnected"])
  | socket_error message =>
      (c, [toast Failure message])
  | timer_startScanner => startScanner c
  | click_startScanner =>
      (* the button is rendered only while [scanning] is false *)
      if scanning c then (c, []) else startScanner c
  | start_settled err => startScanner_settled err c
  | stop_settled resolved => stopScanner_settled resolved c
  | camera_decoded now decodedText => onScanSuccess now decodedText c
  | input_changed value => (setManualInput value c, [])
  | click_send => sendManual c
  end.

(** A sequence of events: the final component and, for each event, what
    its handler did. *)
Fixpoint run (c : Client) (evs : list Event)
    : Client * list (Event * list Effect) :=
  match evs with
  | [] => (c, [])
  | ev :: rest =>
      let (c1, out) := step c ev in
      let (c2, trace) := run c1 rest in
      (c2, (ev, out) :: trace)
  end.

End Handlers.

(** Trimming of the white space of the first 256 code points, for running
    the handlers on examples. *)
Definition isSpace (a : ascii) : bool :=
  let n := N_of_ascii a in
  ((n =? 32) || (9 <=? n) && (n <=? 13) || (n =? 160))%N.

Fixpoint trimStart (s : string) : string :=
  match s with
  | String a rest => if isSpace a then trimStart rest else s
  | EmptyString => EmptyString
  end.

Fixpoint trimEnd (s : string) : string :=
  match s with
  | EmptyString => EmptyString
  | String a rest =>
      match trimEnd rest with
      | EmptyString => if isSpace a then EmptyString else String a EmptyString
      | t => String a t
      end
  end.

Definition trimLatin1 (s : string) : string := trimEnd (trimStart s).

(** A parser that rejects every text: every decoded text is then sent as
    plain text. *)
Definition parseNothing (_ : string) : option Json := None.

(** *** Pages to run the handlers on *)

(** The page opened from a complete link, joined, with its camera
    running. *)
Definition scanningPage : Client :=
  (run parseNothing trimLatin1
     (mount (Some "d1") (Some "s1") initial).1
     [scanner_joined; timer_startScanner; start_settled None]).1.

(** The same page right after [scan-acknowledged]: the stop of the camera
    has been asked for and has not settled. *)
Definition stoppingPage : Client :=
  (step parseNothing trimLatin1 scanningPage (scan_acknowledged (JStr "P1"))).1.

(** The page opened from a link without [deskId], with a manual input
    typed in. *)
Definition unlinkedPage : Client :=
  (run parseNothing trimLatin1
     (mount None (Some "s1") initial).1
     [input_changed " P1 "]).1.

End Scanner.

(** ** The logger wrapper: [utils/logger.ts] *)

Module Logger.

(** What the wrapper hands to winston's own method: the bare message, or
    one record.  The record is an object literal; it is kept as a finite
    map from property names to values. *)
Inductive LogArg : Type :=
| plain (message : Json)
| structured (record : gmap string Json).

(** [if (v) labels.key = v], for a property read [v]. *)
Definition labelIf (key : string) (v : option Json)
    (labels : list (string * Json)) : list (string * Json) :=
  match v with
  | Some x => if truthy v then labels ++ [(key, x)] else labels
  | None => labels
  end.

(** The own enumerable properties of a value that [typeof] calls an object:
    the fields of an object, the indices of an array. *)
Definition entries (v : Json) : list (string * Json) :=
  match v with
  | JObj fields => fields
  | JArr items => imap (fun i x => (pretty i, x)) items
  | _ => []
  end.

(** [{ ...target, ...fields }]: each property is copied onto the target in
    turn, a later one replacing an earlier one of the same name. *)
Definition spread (fields : list (string * Json)) (target : gmap string Json)
    : gmap string Json :=
  foldl (fun m kv => <[kv.1 := kv.2]> m) target fields.

(** [{ message, labels }] *)
Definition base (message : Json) (labels : list (string * Json))
    : gmap string Json :=
  <["message" := message]> {[ "labels" := JObj labels ]}.

(** The function installed as [logger.info], [logger.warn], [logger.error]
    and [logger.debug]: [function (message, uniqueId?, meta = {})].  An
    argument left out is [None]; [meta] is an object when it is given. *)
Definition logMethod (message : Json) (uniqueId : option Json)
    (meta : option (list (string * Json))) : LogArg :=
  let meta := default [] meta in
  match uniqueId with
  | Some (JStr s) =>
      let labels :=
        labelIf "particular" (assoc_field "particular" meta)
          (labelIf "email" (assoc_field "email" meta)
             [("uniqueId", JStr s)]) in
      structured (spread meta (base message labels))
  | Some (JObj fields) =>
      let o := JObj fields in
      let labels :=
        labelIf "particular" (get_prop o "particular")
          (labelIf "email" (get_prop o "email")
             (labelIf "uniqueId" (get_prop o "uniqueId") [])) in
      structured (spread (entries o) (base message labels))
  | Some (JArr items) =>
      let o := JArr items in
      let labels :=
        labelIf "particular" (get_prop o "particular")
          (labelIf "email" (get_prop o "email")
             (labelIf "uniqueId" (get_prop o "uniqueId") [])) in
      structured (spread (entries o) (base message labels))
  | _ => plain message
  end.

(** The labels of a record, when it has them as an object. *)
Definition labelsOf (arg : LogArg) : option (list (string * Json)) :=
  match arg with
  | structured record =>
      match record !! "labels" with
      | Some (JObj labels) => Some labels
      | _ => None
      end
  | plain _ => None
  end.

End Logger.

(** ** The CORS origin check: [index.ts] *)

Module Cors.

(** The pieces of the three origin patterns: literal text and [\d+]. *)
Inductive Token : Type :=
| lit (text : string)
| digits.

Definition isDigit (a : ascii) : bool :=
  let n := N_of_ascii a in ((48 <=? n) && (n <=? 57))%N.

Fixpoint allDigits (s : string) : bool :=
  match s with
  | EmptyString => true
  | String a rest => isDigit a && allDigits rest
  end.

(** The text after a literal prefix, if the text starts with it. *)
Fixpoint stripPrefix (p s : string) : option string :=
  match p with
  | EmptyString => Some s
  | String a p' =>
      match s with
      | String b s' => if Ascii.eqb a b then stripPrefix p' s' else None
      | EmptyString => None
      end
  end.

(** The text after its leading digits. *)
Fixpoint skipDigits (s : string) : string :=
  match s with
  | String a rest => if isDigit a then skipDigits rest else s
  | EmptyString => EmptyString
  end.

(** [/^...$/.test(s)] for a pattern made of literals and [\d+].  In the
    patterns of the file every [\d+] is followed by a literal that starts
    with a character that is no digit, so [\d+] takes all the digits there
    are. *)
Fixpoint test (pattern : list Token) (s : string) : bool :=
  match pattern with
  | [] => String.eqb s ""
  | lit text :: rest =>
      match stripPrefix text s with
      | Some s' => test rest s'
      | None => false
      end
  | digits :: rest =>
      match s with
      | String a s' => if isDigit a then test rest (skipDigits s') else false
      | EmptyString => false
      end
  end.

(** [/^http:\/\/192\.168\.\d+\.\d+:5173$/] *)
Definition lan192 : list Token :=
  [lit "http://192.168."; digits; lit "."; digits; lit ":5173"].

(** [/^http:\/\/10\.\d+\.\d+\.\d+:5173$/] *)
Definition lan10 : list Token :=
  [lit "http://10."; digits; lit "."; digits; lit "."; digits; lit ":5173"].

(** [/^http:\/\/172\.\d+\.\d+\.\d+:5173$/] *)
Definition lan172 : list Token :=
  [lit "http://172."; digits; lit "."; digits; lit "."; digits; lit ":5173"].

Inductive AllowedOrigin : Type :=
| exact (origin : string)
| regex (pattern : list Token).

(** [allowedOrigins], with [process.env.FRONTEND_URL] as it is set. *)
Definition allowedOrigins (FRONTEND_URL : option string) : list AllowedOrigin :=
  [exact "http://localhost:5173"]
  ++ match FRONTEND_URL with
     | Some url => if String.eqb url "" then [] else [exact url]
     | None => []
     end
  ++ [exact "https://infinitum-hostel.vercel.app";
      regex lan192; regex lan10; regex lan172].

Definition admits (origin : string) (a : AllowedOrigin) : bool :=
  match a with
  | exact s => String.eqb s origin
  | regex p => test p origin
  end.

(** [callback(null, true)] or [callback(new Error(...))]. *)
Inductive Verdict : Type :=
| allowed
| refused (error : string).

(** The [origin] function given to [cors]; [None] is a request without an
    [Origin] header. *)
Definition corsOrigin (FRONTEND_URL : option string) (origin : option string)
    : Verdict :=
  match origin with
  | None => allowed
  | Some o =>
      if String.eqb o "" then allowed
      else if existsb (admits o) (allowedOrigins FRONTEND_URL) then allowed
      else refused "Not allowed by CORS"
  end.

(** The leading digits of a text. *)
Fixpoint takeDigits (s : string) : string :=
  match s with
  | String a rest => if isDigit a then String a (takeDigits rest) else EmptyString
  | EmptyString => EmptyString
  end.

(** What a pattern means: the texts it matches. *)
Inductive Matches : list Token -> string -> Prop :=
| matches_end : Matches [] ""
| matches_lit text rest s :
    Matches rest s -> Matches (lit text :: rest) (text +:+ s)
| matches_digits d rest s :
    d <> "" -> allDigits d = true -> Matches rest s ->
    Matches (digits :: rest) (d +:+ s).

(** Every [\d+] is last or is followed by a literal that starts with a
    character that is no digit. *)
Fixpoint settled (pattern : list Token) : bool :=
  match pattern with
  | [] => true
  | lit _ :: rest => settled rest
  | digits :: rest =>
      match rest with
      | [] => true
      | lit (String a _) :: _ => negb (isDigit a)
      | _ => false
      end && settled rest
  end.

End Cors.

(** ** The debug log of the scanner page: [addDebugLog] in [Scanner.tsx] *)

Module DebugLog.

(** [prev.slice(-9)]: the last nine entries, all of them if there are
    fewer. *)
Definition slice_last (n : nat) (prev : list string) : list string :=
  drop (length prev - n) prev.

(** The state update of [addDebugLog(msg)]:
    [[...prev.slice(-9), `${time}: ${msg}`]], with the time string the clock
    gave. *)
Definition addDebugLog (time msg : string) (prev : list string) : list string :=
  slice_last 9 prev ++ [time +:+ ": " +:+ msg].

(** A sequence of calls, oldest first. *)
Definition addAll (calls : list (string * string)) (prev : list string)
    : list string :=
  foldl (fun logs call => addDebugLog call.1 call.2 logs) prev calls.

Definition line (call : string * string) : string :=
  call.1 +:+ ": " +:+ call.2.

End DebugLog.

(** ** Sequences of registry operations *)

Module RegistryOps.

Import Registry.

(** The id and the signature [createDeskSession] makes from a random
    source. *)
Definition newId (src : Entropy) : string :=
  toString_hex (randomBytes 16 src).1.

Definition newSignature (src : Entropy) : string :=
  toString_hex (randomBytes 32 (randomBytes 16 src).2).1.

(** One thing that happens to the module state: a request to one of the two
    endpoints, a validation (as the relay asks for one), or a tick of the
    sweep timer; each with the values of the clock it reads. *)
Inductive Op : Type :=
| op_create (src : Entropy) (now : Z)
| op_validate (now : Z) (id sig : string)
| op_refresh (tv tr : Z) (body : RefreshBody)
| op_sweep (now : Z).

Definition perform (w : World) (op : Op) : World :=
  match op with
  | op_create src now => (createDeskSession src now w).2
  | op_validate now id sig => (validateDeskSession now id sig w).2
  | op_refresh tv tr body => (refreshDeskSession tv tr body w).2
  | op_sweep now => (sweep now w).2
  end.

Definition performAll (w : World) (ops : list Op) : World :=
  foldl perform w ops.

(** The module state when the process starts. *)
Definition startWorld : World := mkWorld ∅ [].

Definition is_create (op : Op) : bool :=
  match op with op_create _ _ => true | _ => false end.

(** A record as [createDeskSession] makes them, stored under its own id. *)
Definition wellFormed (k : string) (s : DeskSession) : Prop :=
  deskId s = k
  /\ String.length k = 32%nat /\ allHex k = true
  /\ String.length (signature s) = 64%nat /\ allHex (signature s) = true.

End RegistryOps.

(** ** Reading the traces of the scanner page *)

Module ScannerTrace.

Import Scanner.

Definition is_joined (ev : Event) : bool :=
  match ev with scanner_joined => true | _ => false end.

Definition is_stop_settled (ev : Event) : bool :=
  match ev with stop_settled _ => true | _ => false end.

(** A message sent on the socket, of either kind. *)
Definition is_socket_emit (e : Effect) : bool :=
  match e with
  | emit_join_scanner _ _ | emit_scan_participant _ => true
  | _ => false
  end.

(** The calls of [qr.start] in a trace. *)
Definition cameraStarts (trace : list (Event * list Effect)) : nat :=
  List.length (List.filter is_camera_start (List.concat (List.map snd trace))).

(** The settlings of a stop among some events. *)
Definition stopsSettled (evs : list Event) : nat :=
  List.length (List.filter is_stop_settled evs).

(** How many cameras the page may still start before a stop settles: none
    while it holds an instance, one otherwise. *)
Definition startsLeft (c : Client) : nat :=
  match scannerRef c with Some _ => 0 | None => 1 end.

End ScannerTrace.

(** * Properties *)

(** ** The session registry *)

Section RegistryFacts.

Import Registry.
Local Open Scope registry_scope.

Implicit Types (w : World) (t : gmap string DeskSession) (s : DeskSession).
Implicit Types (id sig k : string) (now tv tr : Z).

Lemma validate_outcome now id sig w :
  ((validateDeskSession now id sig w).1,
   deskSessions (validateDeskSession now id sig w).2)
  = validateOutcome now id sig (deskSessions w).
Proof.
  unfold validateDeskSession, validateOutcome, bind, getSession.
  destruct (deskSessions w !! id) as [s|]; [|reflexivity].
  destruct (decide (expiresAt s < now)); [reflexivity|].
  destruct (bool_decide (signature s = sig)); reflexivity.
Qed.

Lemma validate_result now id sig w :
  (validateDeskSession now id sig w).1 = (validateOutcome now id sig (deskSessions w)).1.
Proof. by rewrite <- validate_outcome. Qed.

Lemma validate_table now id sig w :
  deskSessions (validateDeskSession now id sig w).2
  = (validateOutcome now id sig (deskSessions w)).2.
Proof. by rewrite <- validate_outcome. Qed.

(** The logger leaves the table alone. *)
Lemma log_table l msg part who w :
  deskSessions (log l msg part who w).2 = deskSessions w.
Proof. reflexivity. Qed.

(** *** The sweep *)

Lemma sweepStep_lookup now t (entry : string * DeskSession) k s :
  sweepStep now t entry !! k = Some s
  <-> t !! k = Some s /\ ~ (k = entry.1 /\ expiresAt entry.2 < now).
Proof.
  unfold sweepStep. destruct (decide (expiresAt entry.2 < now)) as [Hexp|Hlive].
  - destruct (decide (entry.1 = k)) as [->|Hne].
    + rewrite lookup_delete_eq. split; [discriminate|]. intros [_ H]. by destruct H.
    + rewrite lookup_delete_ne by done. split; [|tauto].
      intros H. split; [done|]. intros [-> _]. by apply Hne.
  - split; [|tauto]. intros H. split; [done|]. tauto.
Qed.

Lemma foldl_sweepStep_lookup now (l : list (string * DeskSession)) t k s :
  foldl (sweepStep now) t l !! k = Some s
  <-> t !! k = Some s /\ forall s', (k, s') ∈ l -> ~ expiresAt s' < now.
Proof.
  revert t. induction l as [|[k0 s0] l IH]; intros t; simpl.
  - split; [|tauto]. intros H. split; [done|]. intros s' Hin. by apply elem_of_nil in Hin.
  - rewrite IH, sweepStep_lookup. simpl. split.
    + intros [[Ht Hhead] Htail]. split; [done|].
      intros s' Hin. apply elem_of_cons in Hin as [Heq|Hin]; [|by apply Htail].
      injection Heq as -> ->. tauto.
    + intros [Ht Hall]. split; [split; [done|]|].
      * intros [-> Hexp]. apply (Hall s0); [left|done].
      * intros s' Hin. apply Hall. by right.
Qed.

Lemma sweepTable_lookup now t k s :
  sweepTable now t !! k = Some s <-> t !! k = Some s /\ ~ expiresAt s < now.
Proof.
  unfold sweepTable. rewrite foldl_sweepStep_lookup. split.
  - intros [Ht Hall]. split; [done|]. apply Hall. by apply elem_of_map_to_list.
  - intros [Ht Hlive]. split; [done|]. intros s' Hin.
    apply elem_of_map_to_list in Hin. congruence.
Qed.

(** The loop computes the filter of the table by "not expired". *)
Lemma sweepTable_filter now t :
  sweepTable now t = filter (fun entry => ~ expiresAt entry.2 < now) t.
Proof.
  apply map_eq. intros k. apply option_eq. intros s.
  rewrite sweepTable_lookup, map_lookup_filter_Some. reflexivity.
Qed.

(** *** Refresh *)

Lemma refresh_outcome tv tr (body : RefreshBody) w :
  ((refreshDeskSession tv tr body w).1,
   deskSessions (refreshDeskSession tv tr body w).2)
  = refreshOutcome tv tr (body_deskId body) (body_signature body) (deskSessions w).
Proof.
  unfold refreshDeskSession, refreshOutcome, bind, log, ret. simpl.
  match goal with |- context [validateDeskSession ?a ?b ?c ?w1] =>
    pose proof (validate_outcome a b c w1) as Hv;
    destruct (validateDeskSession a b c w1) as [ok w2] end.
  simpl in Hv. rewrite <- Hv. destruct ok; simpl; [|reflexivity].
  unfold getSession, setSession. simpl.
  destruct (deskSessions w2 !! body_deskId body); reflexivity.
Qed.

(** *** Hexadecimal strings *)

Lemma hexDigit_isHex (n : N) : isHexDigit (hexDigit n) = true.
Proof.
  destruct n as [|p]; [reflexivity|].
  do 4 (try destruct p as [p|p|]); reflexivity.
Qed.

Lemma toString_hex_length (buf : list Byte.byte) :
  String.length (toString_hex buf) = (2 * List.length buf)%nat.
Proof. induction buf as [|b buf IH]; simpl; [reflexivity|]. rewrite IH. lia. Qed.

Lemma toString_hex_allHex (buf : list Byte.byte) :
  allHex (toString_hex buf) = true.
Proof.
  induction buf as [|b buf IH]; [reflexivity|].
  cbn [toString_hex allHex]. by rewrite !hexDigit_isHex, IH.
Qed.

Lemma byte_hex_roundtrip (b : Byte.byte) :
  fromHex (toString_hex [b]) = Some [b].
Proof. destruct b; vm_compute; reflexivity. Qed.

Lemma fromHex_toString_hex (buf : list Byte.byte) :
  fromHex (toString_hex buf) = Some buf.
Proof.
  induction buf as [|b buf IH]; [reflexivity|].
  pose proof (byte_hex_roundtrip b) as Hb.
  cbn [toString_hex fromHex] in Hb |- *. rewrite IH.
  destruct (unhexDigit (hexDigit (Byte.to_N b / 16))) as [hi|]; [|discriminate].
  destruct (unhexDigit (hexDigit (Byte.to_N b mod 16))) as [lo|]; [|discriminate].
  destruct (Byte.of_N (16 * hi + lo)) as [b'|]; [|discriminate].
  by injection Hb as ->.
Qed.

Lemma randomBytes_length n (src : Entropy) :
  List.length (randomBytes n src).1 = n.
Proof. unfold randomBytes. simpl. by rewrite length_map, length_seq. Qed.

End RegistryFacts.

Section ValidateAndSweep.

Import Registry.
Local Open Scope registry_scope.

Implicit Types (w : World) (t : gmap string DeskSession) (s : DeskSession).
Implicit Types (id sig k : string) (now tv tr : Z).

(** C1.  [validateDeskSession]: false when the table has no session under
    the id (table unchanged); false with the record removed when the
    session's [expiresAt] is earlier than the clock, whatever the
    signature; false when the session is live and the signature differs
    (table unchanged); true when it is live and the signature is the stored
    one (table unchanged).  So the result is true exactly for a stored,
    unexpired session with the given signature, and false as soon as
    [now > expiresAt]. *)
Theorem validate_cases now id sig w :
  let r := validateDeskSession now id sig w in
  (deskSessions w !! id = None ->
     r.1 = false /\ deskSessions r.2 = deskSessions w)
  /\ (forall s, deskSessions w !! id = Some s -> expiresAt s < now ->
     r.1 = false
     /\ deskSessions r.2 = delete id (deskSessions w)
     /\ deskSessions r.2 !! id = None)
  /\ (forall s, deskSessions w !! id = Some s -> ~ expiresAt s < now ->
     signature s <> sig ->
     r.1 = false /\ deskSessions r.2 = deskSessions w)
  /\ (forall s, deskSessions w !! id = Some s -> ~ expiresAt s < now ->
     signature s = sig ->
     r.1 = true /\ deskSessions r.2 = deskSessions w)
  /\ (r.1 = true <->
     exists s, deskSessions w !! id = Some s /\ now <= expiresAt s /\ signature s = sig).
Proof.
  cbv zeta. rewrite validate_result, validate_table. unfold validateOutcome.
  split; [|split; [|split; [|split]]].
  - by intros ->.
  - intros s -> Hexp. destruct (decide (expiresAt s < now)); [|done].
    simpl. split; [done|]. split; [done|]. apply lookup_delete_eq.
  - intros s -> Hlive Hsig. destruct (decide (expiresAt s < now)); [done|].
    simpl. split; [|done]. by apply bool_decide_eq_false.
  - intros s -> Hlive Hsig. destruct (decide (expiresAt s < now)); [done|].
    simpl. split; [|done]. by apply bool_decide_eq_true.
  - split.
    + destruct (deskSessions w !! id) as [s|]; [|discriminate].
      destruct (decide (expiresAt s < now)); [discriminate|].
      simpl. intros Hsig%bool_decide_eq_true. exists s.
      split; [done|]. split; [lia|done].
    + intros (s & -> & Hlive & Hsig).
      destruct (decide (expiresAt s < now)); [lia|].
      simpl. by apply bool_decide_eq_true.
Qed.

(** C7.  One run of the sweep (set to run every 60 seconds) keeps exactly
    the entries whose [expiresAt] is not earlier than the clock, each with
    its record unchanged: an expired entry is gone, a live one is still
    there, and nothing expired is left. *)
Theorem sweep_removes_exactly_expired now w :
  let w' := (sweep now w).2 in
  SWEEP_INTERVAL = 60 * 1000
  /\ (forall k s, deskSessions w' !! k = Some s
                  <-> deskSessions w !! k = Some s /\ ~ expiresAt s < now)
  /\ (forall k s, deskSessions w !! k = Some s -> expiresAt s < now ->
                  deskSessions w' !! k = None)
  /\ (forall k s, deskSessions w !! k = Some s -> now <= expiresAt s ->
                  deskSessions w' !! k = Some s)
  /\ (forall k s, deskSessions w' !! k = Some s -> now <= expiresAt s)
  /\ logged w' = logged w.
Proof.
  cbv zeta. simpl. split; [reflexivity|].
  split; [intros k s; apply sweepTable_lookup|].
  split; [|split; [|split; [|reflexivity]]].
  - intros k s Hk Hexp.
    destruct (sweepTable now (deskSessions w) !! k) as [s'|] eqn:Hs'; [|done].
    apply sweepTable_lookup in Hs' as [Hk' Hlive]. congruence.
  - intros k s Hk Hlive. apply sweepTable_lookup. split; [done|lia].
  - intros k s [_ Hlive]%sweepTable_lookup. lia.
Qed.

End ValidateAndSweep.

Section RefreshAndCreate.

Import Registry.
Local Open Scope registry_scope.

Implicit Types (w : World) (t : gmap string DeskSession) (s : DeskSession).
Implicit Types (id sig k : string) (now tv tr : Z) (body : RefreshBody).

(** C3.  A successful refresh (status 200) changes one thing in the table:
    the record stored under the request's [deskId] gets
    [expiresAt = tr + 30 minutes], where [tr] is the clock read at the
    reset; its [deskId], [signature] (the one presented) and [createdAt] are
    the old ones, and every other entry of the table is as before. *)
Theorem refresh_changes_only_expiry tv tr body w :
  let id := body_deskId body in
  let r := refreshDeskSession tv tr body w in
  status r.1 = 200 ->
  exists s,
    deskSessions w !! id = Some s
    /\ signature s = body_signature body
    /\ deskSessions r.2 !! id
       = Some (mkDeskSession (deskId s) (signature s) (createdAt s)
                             (tr + 30 * 60 * 1000))
    /\ (forall k, k <> id -> deskSessions r.2 !! k = deskSessions w !! k).
Proof.
  cbv zeta. intros Hok.
  pose proof (refresh_outcome tv tr body w) as Hr.
  destruct (refreshDeskSession tv tr body w) as [resp w']. simpl in *.
  unfold refreshOutcome, validateOutcome in Hr.
  destruct (deskSessions w !! body_deskId body) as [s|] eqn:Hs.
  - destruct (decide (expiresAt s < tv)).
    + injection Hr as -> _. discriminate Hok.
    + destruct (bool_decide (signature s = body_signature body)) eqn:Hsig.
      * rewrite Hs in Hr. injection Hr as _ ->.
        apply bool_decide_eq_true in Hsig.
        exists s. split; [done|]. split; [done|]. split.
        -- by rewrite lookup_insert_eq.
        -- intros k Hk. by rewrite lookup_insert_ne.
      * injection Hr as -> _. discriminate Hok.
  - injection Hr as -> _. discriminate Hok.
Qed.

(** C4.  A refresh request with body [{deskId, signature}] is answered by
    what [validateDeskSession] says: on true, status 200 with
    [expiresIn] (the 30 minutes); on false, status 401, and the table is the
    one [validateDeskSession] left: an entry it still has is an entry of
    the table before the request, unchanged. *)
Theorem refresh_status tv tr body w :
  let v := validateDeskSession tv (body_deskId body) (body_signature body) w in
  let r := refreshDeskSession tv tr body w in
  (v.1 = true ->
     status r.1 = 200
     /\ data (json r.1) = Some (RefreshData (30 * 60 * 1000)))
  /\ (v.1 = false ->
     status r.1 = 401
     /\ deskSessions r.2 = deskSessions v.2
     /\ forall k s, deskSessions r.2 !! k = Some s -> deskSessions w !! k = Some s).
Proof.
  cbv zeta. rewrite validate_result, validate_table.
  pose proof (refresh_outcome tv tr body w) as Hr.
  destruct (refreshDeskSession tv tr body w) as [resp w']. simpl in *.
  unfold refreshOutcome in Hr.
  destruct (validateOutcome tv (body_deskId body) (body_signature body)
              (deskSessions w)) as [ok t'] eqn:Hv.
  simpl. split; intros ->.
  - injection Hr as -> _. split; reflexivity.
  - injection Hr as -> ->. split; [reflexivity|]. split; [reflexivity|].
    intros k s Hk. unfold validateOutcome in Hv.
    destruct (deskSessions w !! body_deskId body) as [s0|].
    + destruct (decide (expiresAt s0 < tv)).
      * injection Hv as <-. by apply lookup_delete_Some in Hk as [_ ?].
      * by injection Hv as _ <-.
    + by injection Hv as <-.
Qed.

(** C5.  Two refresh requests that both fail validation, for whatever
    reasons (no such id, expired, wrong signature), on whatever tables and
    at whatever times, get the same response: status 401 with the one
    generic body. *)
Theorem refresh_failures_indistinguishable tv1 tr1 body1 w1 tv2 tr2 body2 w2 :
  (validateDeskSession tv1 (body_deskId body1) (body_signature body1) w1).1 = false ->
  (validateDeskSession tv2 (body_deskId body2) (body_signature body2) w2).1 = false ->
  (refreshDeskSession tv1 tr1 body1 w1).1 = (refreshDeskSession tv2 tr2 body2 w2).1
  /\ (refreshDeskSession tv1 tr1 body1 w1).1
     = mkResponse 401 (mkBody false (Some "Invalid or expired desk session") None).
Proof.
  assert (Hfail : forall tv tr body w,
    (validateDeskSession tv (body_deskId body) (body_signature body) w).1 = false ->
    (refreshDeskSession tv tr body w).1 = unauthorized).
  { intros tv tr body w. rewrite validate_result. intros Hv.
    pose proof (refresh_outcome tv tr body w) as Hr.
    destruct (refreshDeskSession tv tr body w) as [resp w']. simpl in *.
    unfold refreshOutcome in Hr.
    destruct (validateOutcome tv (body_deskId body) (body_signature body)
                (deskSessions w)) as [ok t'].
    simpl in Hv. subst ok. by injection Hr as ->. }
  intros H1 H2. rewrite (Hfail _ tr1 _ _ H1), (Hfail _ tr2 _ _ H2). done.
Qed.

(** C6.  [createDeskSession] draws 16 random bytes (128 bits) for the id
    and 32 more (256 bits) for the signature, writes them as 32 and 64
    hexadecimal characters (from which the bytes can be read back), stores
    under the id a record with
    [createdAt = now] and [expiresAt = now + 30 minutes], and answers 200
    with the id, the signature and the expiry interval. *)
Theorem create_session (src : Entropy) now w :
  let r := createDeskSession src now w in
  let idBytes := (randomBytes 16 src).1 in
  let sigBytes := (randomBytes 32 (randomBytes 16 src).2).1 in
  let id := toString_hex idBytes in
  let sig := toString_hex sigBytes in
  List.length idBytes = 16%nat /\ List.length sigBytes = 32%nat
  /\ String.length id = 32%nat /\ allHex id = true /\ fromHex id = Some idBytes
  /\ String.length sig = 64%nat /\ allHex sig = true /\ fromHex sig = Some sigBytes
  /\ deskSessions r.2
     = <[id := mkDeskSession id sig now (now + 30 * 60 * 1000)]> (deskSessions w)
  /\ r.1 = mkResponse 200
             (mkBody true None (Some (SessionData id sig (30 * 60 * 1000)))).
Proof.
  cbv zeta.
  split; [apply randomBytes_length|]. split; [apply randomBytes_length|].
  split; [by rewrite toString_hex_length, randomBytes_length|].
  split; [apply toString_hex_allHex|].
  split; [apply fromHex_toString_hex|].
  split; [by rewrite toString_hex_length, randomBytes_length|].
  split; [apply toString_hex_allHex|].
  split; [apply fromHex_toString_hex|].
  split; reflexivity.
Qed.

End RefreshAndCreate.

(** ** The scan handshake *)

Section HandshakeProperties.

Import Relay.

Implicit Types (st : Handshake) (ms : list Message) (u : Json).






(** C8.  The cycle: a scan with a valid id is forwarded from [idle] and
    moves to [awaiting_ack]; [ack-scan] moves to [paused]; [resume] moves
    back to [idle]; and there the next scan with a valid id is accepted and
    forwarded again. *)
Theorem ack_then_resume_round_trip c1 u1 p1 c2 u2 p2 :
  valid_id u1 = Some p1 ->
  valid_id u2 = Some p2 ->
  step idle (scan_participant c1 u1) = (awaiting_ack, [scan_received p1])
  /\ step awaiting_ack ack_scan = (paused, [scan_acknowledged])
  /\ step paused resume = (idle, [resume_scanning])
  /\ run awaiting_ack [ack_scan; resume] = (idle, [scan_acknowledged; resume_scanning])
  /\ step (run awaiting_ack [ack_scan; resume]).1 (scan_participant c2 u2)
     = (awaiting_ack, [scan_received p2])
  /\ run idle [scan_participant c1 u1; ack_scan; resume; scan_participant c2 u2]
     = (awaiting_ack,
        [scan_received p1; scan_acknowledged; resume_scanning; scan_received p2]).
Proof.
  intros H1 H2. simpl. rewrite H1, H2. simpl. repeat split; reflexivity.
Qed.

End HandshakeProperties.

(** ** The scanner page *)

Section ScannerProperties.

Import Scanner.

Variable JSON_parse : string -> option Json.
Variable trim : string -> string.

#[local] Abbreviation step := (Scanner.step JSON_parse trim).
#[local] Abbreviation run := (Scanner.run JSON_parse trim).
#[local] Abbreviation onScanSuccess := (Scanner.onScanSuccess JSON_parse trim).
#[local] Abbreviation sendManual := (Scanner.sendManual trim).

Implicit Types (c : Client) (ev : Event) (evs : list Event).

(** While the pause flag is set, [onScanSuccess] sends nothing and sets no
    flag but the time of the last scan. *)
Lemma onScanSuccess_paused now text c :
  pausedRef c = true ->
  (onScanSuccess now text c).2 = []
  /\ pausedRef (onScanSuccess now text c).1 = true.
Proof.
  intros Hp. unfold Scanner.onScanSuccess.
  destruct (decide (now - lastScanTsRef c < 1500)); [done|].
  simpl. by rewrite Hp.
Qed.

(** Only [resume-scanning] clears the pause flag. *)
Lemma step_keeps_pause c ev :
  is_resume ev = false -> pausedRef c = true -> pausedRef (step c ev).1 = true.
Proof.
  intros Hev Hp. destruct ev; try discriminate Hev; simpl; try done.
  - unfold stopScanner. simpl. by destruct (scannerRef c).
  - unfold startScanner. by destruct (scannerRef c).
  - destruct (scanning c); [done|]. unfold startScanner. by destruct (scannerRef c).
  - by destruct err.
  - by apply onScanSuccess_paused.
  - unfold Scanner.sendManual. by destruct (String.eqb _ _).
Qed.

Lemma run_paused_camera_silent c evs :
  pausedRef c = true ->
  forallb (fun ev => negb (is_resume ev)) evs = true ->
  pausedRef (run c evs).1 = true
  /\ forall ev out, (ev, out) ∈ (run c evs).2 -> is_camera_decoded ev = true -> out = [].
Proof.
  revert c. induction evs as [|ev evs IH]; intros c Hp Hevs; simpl.
  - split; [done|]. intros ev out Hin. by apply elem_of_nil in Hin.
  - simpl in Hevs. apply andb_true_iff in Hevs as [Hev Hevs].
    apply negb_true_iff in Hev.
    pose proof (step_keeps_pause c ev Hev Hp) as Hp1.
    assert (Hout : is_camera_decoded ev = true -> (step c ev).2 = []).
    { destruct ev; try discriminate. intros _. by apply onScanSuccess_paused. }
    destruct (step c ev) as [c1 out1]. simpl in *.
    destruct (IH c1 Hp1 Hevs) as [Hp2 Hsilent].
    destruct (run c1 evs) as [c2 trace]. simpl in *.
    split; [done|]. intros ev' out' Hin Hcam.
    apply elem_of_cons in Hin as [Heq|Hin]; [|by eapply Hsilent].
    injection Heq as -> ->. by apply Hout.
Qed.

(** X20.  [scan-acknowledged] sets the pause flag and calls [stop] on the
    camera instance the page holds, if it holds one.  From then on, whatever
    happens on the page, as long as no [resume-scanning] arrives no run of
    [onScanSuccess] sends anything, and the flag stays set.
    [resume-scanning] clears the flag and calls [startScanner], which starts
    a camera when the page holds no instance and returns at its guard when it
    holds one. *)
Theorem pause_blocks_camera_scans c uid evs c' :
  forallb (fun ev => negb (is_resume ev)) evs = true ->
  let acked := step c (scan_acknowledged uid) in
  let resumed := step c' resume_scanning in
  (pausedRef acked.1 = true /\ paused acked.1 = true
   /\ acked.2 = match scannerRef c with Some _ => [camera_stop] | None => [] end
                ++ [toast Plain "Waiting for desk to clear…"])
  /\ (pausedRef (run acked.1 evs).1 = true
      /\ forall ev out, (ev, out) ∈ (run acked.1 evs).2 ->
                        is_camera_decoded ev = true -> out = [])
  /\ (pausedRef resumed.1 = false /\ paused resumed.1 = false
      /\ match scannerRef c' with
         | None => resumed.2 = [camera_start]
                   /\ scannerRef resumed.1 = Some QrReader
         | Some q => resumed.2 = [] /\ scannerRef resumed.1 = Some q
         end).
Proof.
  intros Hevs. cbv zeta.
  assert (Hack : pausedRef (step c (scan_acknowledged uid)).1 = true).
  { simpl. unfold stopScanner. simpl. by destruct (scannerRef c). }
  split; [|split].
  - split; [done|]. simpl. unfold stopScanner. simpl.
    by destruct (scannerRef c).
  - by apply run_paused_camera_silent.
  - simpl. unfold startScanner. simpl.
    destruct (scannerRef c') eqn:Hq; simpl; rewrite ?Hq; auto.
Qed.

(** C10, as the code has it.  Once the page has its socket, the Send
    button sends [scan-participant] with the trimmed input whenever that is
    not empty, whatever the pause flag, the connected flag and the time of
    the last scan are; [onScanSuccess] sends nothing if the pause flag is
    set, nothing if the connected flag is not, and nothing within 1500 ms of
    the last scan. *)
Theorem manual_send_skips_guards c sock :
  socketRef c = Some sock ->
  trim (manualInput c) <> "" ->
  (sendManual c).2 = [emit_scan_participant (JStr (trim (manualInput c)))]
  /\ (forall p k ts,
        (sendManual (setLastScanTs ts (setConnected k (setPaused p c)))).2
        = [emit_scan_participant (JStr (trim (manualInput c)))])
  /\ (forall now text,
        pausedRef c = true \/ connectedRef c = false \/ now - lastScanTsRef c < 1500 ->
        (onScanSuccess now text c).2 = []).
Proof.
  intros Hsock Hinput.
  assert (Hne : String.eqb (trim (manualInput c)) "" = false).
  { by apply String.eqb_neq. }
  split; [|split].
  - unfold Scanner.sendManual. by rewrite Hne, Hsock.
  - intros p k ts. unfold Scanner.sendManual. simpl. by rewrite Hne, Hsock.
  - intros now text Hguard. unfold Scanner.onScanSuccess.
    destruct (decide (now - lastScanTsRef c < 1500)); [done|]. simpl.
    destruct (pausedRef c); [done|].
    destruct (connectedRef c); [|done].
    destruct Hguard as [?|[?|?]]; done.
Qed.

End ScannerProperties.

(** ** The theorems at work on the sample table and pages *)

Section RegistryExamples.

Import Registry.

Example sample_lookup : deskSessions sampleWorld !! "d1" = Some sampleSession.
Proof. vm_compute. reflexivity. Qed.

(** One millisecond after the expiry the session is refused and gone; at
    the expiry itself it is still accepted; a wrong signature and an
    unknown id are refused. *)
Lemma validate_cases_witness :
  ((validateDeskSession 1801001 "d1" "s1" sampleWorld).1 = false
   /\ deskSessions (validateDeskSession 1801001 "d1" "s1" sampleWorld).2 !! "d1" = None)
  /\ (validateDeskSession 1801000 "d1" "s1" sampleWorld).1 = true
  /\ (validateDeskSession 1801000 "d1" "zz" sampleWorld).1 = false
  /\ (validateDeskSession 5 "d2" "s1" sampleWorld).1 = false.
Proof.
  split; [|split; [|split]].
  - destruct (validate_cases 1801001 "d1" "s1" sampleWorld) as (_ & Hexpired & _).
    destruct (Hexpired sampleSession) as (Hres & _ & Hgone).
    + vm_compute. reflexivity.
    + vm_compute. reflexivity.
    + split; assumption.
  - destruct (validate_cases 1801000 "d1" "s1" sampleWorld) as (_ & _ & _ & Hvalid & _).
    apply (Hvalid sampleSession).
    + vm_compute. reflexivity.
    + vm_compute. discriminate.
    + reflexivity.
  - destruct (validate_cases 1801000 "d1" "zz" sampleWorld) as (_ & _ & Hwrong & _).
    apply (Hwrong sampleSession).
    + vm_compute. reflexivity.
    + vm_compute. discriminate.
    + vm_compute. discriminate.
  - destruct (validate_cases 5 "d2" "s1" sampleWorld) as (Habsent & _).
    apply Habsent. vm_compute. reflexivity.
Defined.

(** A sweep one millisecond after the expiry empties the sample table; a
    sweep at the expiry keeps its session. *)
Lemma sweep_removes_exactly_expired_witness :
  deskSessions (sweep 1801001 sampleWorld).2 !! "d1" = None
  /\ deskSessions (sweep 1801000 sampleWorld).2 !! "d1" = Some sampleSession.
Proof.
  split.
  - destruct (sweep_removes_exactly_expired 1801001 sampleWorld)
      as (_ & _ & Hgone & _).
    apply (Hgone "d1" sampleSession); vm_compute; reflexivity.
  - destruct (sweep_removes_exactly_expired 1801000 sampleWorld)
      as (_ & _ & _ & Hkept & _).
    apply (Hkept "d1" sampleSession); vm_compute; [reflexivity|discriminate].
Defined.

(** A refresh at time 2500 moves the expiry to 1802500 and nothing else. *)
Lemma refresh_changes_only_expiry_witness :
  deskSessions (refreshDeskSession 2000 2500 (mkRefreshBody "d1" "s1") sampleWorld).2
    !! "d1"
  = Some (mkDeskSession "d1" "s1" 1000 1802500).
Proof.
  destruct (refresh_changes_only_expiry 2000 2500 (mkRefreshBody "d1" "s1") sampleWorld)
    as (s & Hs & _ & Hnew & _).
  - vm_compute. reflexivity.
  - vm_compute in Hs. injection Hs as <-. exact Hnew.
Defined.

Lemma refresh_status_witness :
  status (refreshDeskSession 2000 2500 (mkRefreshBody "d1" "s1") sampleWorld).1 = 200
  /\ status (refreshDeskSession 2000 2500 (mkRefreshBody "d1" "zz") sampleWorld).1 = 401.
Proof.
  split.
  - destruct (refresh_status 2000 2500 (mkRefreshBody "d1" "s1") sampleWorld)
      as (Hok & _).
    apply Hok. vm_compute. reflexivity.
  - destruct (refresh_status 2000 2500 (mkRefreshBody "d1" "zz") sampleWorld)
      as (_ & Hfail).
    apply Hfail. vm_compute. reflexivity.
Defined.

(** An unknown id, an expired session and a wrong signature are answered
    alike. *)
Lemma refresh_failures_indistinguishable_witness :
  (refreshDeskSession 2000 2500 (mkRefreshBody "d2" "s1") sampleWorld).1
  = (refreshDeskSession 1801001 1801002 (mkRefreshBody "d1" "s1") sampleWorld).1
  /\ (refreshDeskSession 1801001 1801002 (mkRefreshBody "d1" "s1") sampleWorld).1
     = (refreshDeskSession 2000 2500 (mkRefreshBody "d1" "zz") sampleWorld).1.
Proof.
  split.
  - apply (refresh_failures_indistinguishable
             2000 2500 (mkRefreshBody "d2" "s1") sampleWorld
             1801001 1801002 (mkRefreshBody "d1" "s1") sampleWorld);
      vm_compute; reflexivity.
  - apply (refresh_failures_indistinguishable
             1801001 1801002 (mkRefreshBody "d1" "s1") sampleWorld
             2000 2500 (mkRefreshBody "d1" "zz") sampleWorld);
      vm_compute; reflexivity.
Defined.

(** The three failures are told apart in the log, not in the response. *)
Example refresh_failures_logged_apart :
  List.map particular
    (logged (refreshDeskSession 2000 2500 (mkRefreshBody "d2" "s1") sampleWorld).2)
  = ["refresh_desk_session"; "validate_desk_session_not_found";
     "refresh_desk_session_invalid"]
  /\ List.map particular
    (logged (refreshDeskSession 1801001 1801002 (mkRefreshBody "d1" "s1") sampleWorld).2)
  = ["refresh_desk_session"; "validate_desk_session_expired";
     "refresh_desk_session_invalid"]
  /\ List.map particular
    (logged (refreshDeskSession 2000 2500 (mkRefreshBody "d1" "zz") sampleWorld).2)
  = ["refresh_desk_session"; "validate_desk_session_invalid_signature";
     "refresh_desk_session_invalid"].
Proof. vm_compute. repeat split; reflexivity. Qed.

Example create_session_sample :
  (createDeskSession countingEntropy 1000 (mkWorld ∅ [])).1
  = mkResponse 200
      (mkBody true None
         (Some (SessionData
                  "000102030405060708090a0b0c0d0e0f"
                  "101112131415161718191a1b1c1d1e1f202122232425262728292a2b2c2d2e2f"
                  1800000))).
Proof. vm_compute. reflexivity. Qed.

(** A session created at time 1000 and never refreshed: 31 minutes later
    it is refused with its own signature, and the table no longer has it. *)
Example created_then_expired :
  let id := "000102030405060708090a0b0c0d0e0f" in
  let sig := "101112131415161718191a1b1c1d1e1f202122232425262728292a2b2c2d2e2f" in
  let w1 := (createDeskSession countingEntropy 1000 (mkWorld ∅ [])).2 in
  let late := 1000 + 31 * 60 * 1000 in
  (validateDeskSession 1000 id sig w1).1 = true
  /\ (validateDeskSession late id sig w1).1 = false
  /\ deskSessions (validateDeskSession late id sig w1).2 !! id = None.
Proof. vm_compute. repeat split; reflexivity. Qed.

End RegistryExamples.

Section RelayExamples.

Import Relay.

Lemma ack_then_resume_round_trip_witness :
  run idle [scan_participant 1%nat (JStr "P1"); ack_scan; resume;
            scan_participant 2%nat (JStr "P2")]
  = (awaiting_ack,
     [scan_received "P1"; scan_acknowledged; resume_scanning; scan_received "P2"]).
Proof.
  apply (ack_then_resume_round_trip 1%nat (JStr "P1") "P1" 2%nat (JStr "P2") "P2");
    reflexivity.
Defined.


(** A [resume] that comes before the [ack-scan] does not reopen the gate:
    the second scan is dropped. *)
Example resume_before_ack_keeps_gate :
  run idle [scan_participant 1%nat (JStr "P1"); resume;
            scan_participant 1%nat (JStr "P2")]
  = (awaiting_ack, [scan_received "P1"]).
Proof. reflexivity. Qed.

(** An empty string and a payload that is not a string change nothing. *)
Example malformed_scans_rejected :
  run idle [scan_participant 1%nat (JStr ""); scan_participant 1%nat JNull;
            scan_participant 2%nat (JNum 7)]
  = (idle, []).
Proof. reflexivity. Qed.

End RelayExamples.

Section ScannerExamples.

Import Scanner.

#[local] Abbreviation step := (Scanner.step parseNothing trimLatin1).
#[local] Abbreviation run := (Scanner.run parseNothing trimLatin1).

Example scanningPage_state :
  scanningPage
  = mkClient true true false None "" (Some SocketIO) (Some QrReader) true false 0.
Proof. reflexivity. Qed.

(** On the running page a decoded text is sent. *)
Example camera_scan_sent :
  (step scanningPage (camera_decoded 5000 " P2 ")).2
  = [emit_scan_participant (JStr "P2")].
Proof. vm_compute. reflexivity. Qed.

(** After [scan-acknowledged], two decoded texts, a click on Start Scanner
    and the settling of the stop leave the pause flag set; the page sent
    nothing for the decoded texts. *)
Lemma pause_blocks_camera_scans_witness :
  pausedRef
    (run (step scanningPage (scan_acknowledged (JStr "P1"))).1
       [camera_decoded 5000 "P2"; stop_settled true; click_startScanner;
        camera_decoded 9000 "P3"]).1 = true
  /\ List.map snd
       (List.filter (fun entry => is_camera_decoded entry.1)
          (run (step scanningPage (scan_acknowledged (JStr "P1"))).1
             [camera_decoded 5000 "P2"; stop_settled true; click_startScanner;
              camera_decoded 9000 "P3"]).2)
     = [[]; []].
Proof.
  destruct (pause_blocks_camera_scans parseNothing trimLatin1
              scanningPage (JStr "P1")
              [camera_decoded 5000 "P2"; stop_settled true; click_startScanner;
               camera_decoded 9000 "P3"]
              scanningPage eq_refl) as (_ & (Hflag & _) & _).
  split; [exact Hflag|]. vm_compute. reflexivity.
Defined.

(** C9, where the code fails it.  The page has joined and its camera runs;
    [scan-acknowledged] arrives and the stop it asks for has not settled when
    [resume-scanning] arrives.  The flag is cleared, but the page still holds
    the camera instance, so [startScanner] returns at once and starts
    nothing; when the stop then settles the page holds no instance and shows
    no scanning: the camera has not been restarted. *)
Lemma resume_before_stop_settles_starts_nothing :
  let resumed := step stoppingPage resume_scanning in
  let settled := step resumed.1 (stop_settled true) in
  pausedRef stoppingPage = true
  /\ scannerRef stoppingPage = Some QrReader
  /\ resumed.2 = []
  /\ existsb is_camera_start resumed.2 = false
  /\ pausedRef resumed.1 = false
  /\ settled.2 = [camera_clear]
  /\ scannerRef settled.1 = None
  /\ scanning settled.1 = false.
Proof. vm_compute. repeat split; reflexivity. Qed.

Lemma manual_send_skips_guards_witness :
  (Scanner.sendManual trimLatin1 (setManualInput " P7 " stoppingPage)).2
  = [emit_scan_participant (JStr "P7")]
  /\ (Scanner.onScanSuccess parseNothing trimLatin1 5000 "P7"
        (setManualInput " P7 " stoppingPage)).2 = [].
Proof.
  destruct (manual_send_skips_guards parseNothing trimLatin1
              (setManualInput " P7 " stoppingPage) SocketIO)
    as (Hsend & _ & Hcamera).
  - reflexivity.
  - vm_compute. discriminate.
  - split; [exact Hsend|]. apply Hcamera. left. reflexivity.
Defined.

(** C10, without a socket.  On the page opened from a link without
    [deskId] the trimmed input is not empty and Send sends nothing. *)
Lemma send_without_socket_sends_nothing :
  socketRef unlinkedPage = None
  /\ trimLatin1 (manualInput unlinkedPage) = "P1"
  /\ (step unlinkedPage click_send).2 = []
  /\ existsb is_emit_scan (step unlinkedPage click_send).2 = false.
Proof. vm_compute. repeat split; reflexivity. Qed.

End ScannerExamples.

(** * Further properties *)

(** ** The registry: how its operations compose *)

Section RegistryComposition.

Import Registry RegistryOps.

Implicit Types (w : World) (t : gmap string DeskSession) (s : DeskSession).
Implicit Types (id sig k : string) (now tv tr : Z) (body : RefreshBody).

Lemma create_table (src : Entropy) now w :
  deskSessions (createDeskSession src now w).2
  = <[newId src := mkDeskSession (newId src) (newSignature src) now
                     (now + SESSION_EXPIRY)]> (deskSessions w).
Proof. reflexivity. Qed.

Lemma refresh_table tv tr body w :
  deskSessions (refreshDeskSession tv tr body w).2
  = (refreshOutcome tv tr (body_deskId body) (body_signature body) (deskSessions w)).2.
Proof. by rewrite <- refresh_outcome. Qed.

Lemma refresh_response tv tr body w :
  (refreshDeskSession tv tr body w).1
  = (refreshOutcome tv tr (body_deskId body) (body_signature body) (deskSessions w)).1.
Proof. by rewrite <- refresh_outcome. Qed.

(** The result of a validation is read off the entry under the id. *)
Lemma validateOutcome_result now id sig t :
  (validateOutcome now id sig t).1
  = match t !! id with
    | Some s => bool_decide (now <= expiresAt s) && bool_decide (signature s = sig)
    | None => false
    end.
Proof.
  unfold validateOutcome. destruct (t !! id) as [s|]; [|reflexivity].
  destruct (decide (expiresAt s < now)); simpl.
  - rewrite (bool_decide_eq_false_2 (now <= expiresAt s)) by lia. reflexivity.
  - rewrite (bool_decide_eq_true_2 (now <= expiresAt s)) by lia. reflexivity.
Qed.

(** X1.  The credentials a create request answers with are accepted by
    [validateDeskSession] at every time up to 30 minutes after the creation
    and at no later time; the request leaves every other session of the table
    as it was. *)
Theorem created_session_validates (src : Entropy) now w clock :
  let r := createDeskSession src now w in
  data (json r.1) = Some (SessionData (newId src) (newSignature src) (30 * 60 * 1000))
  /\ (validateDeskSession clock (newId src) (newSignature src) r.2).1
     = bool_decide (clock <= now + 30 * 60 * 1000)
  /\ (forall k, k <> newId src -> deskSessions r.2 !! k = deskSessions w !! k).
Proof.
  cbv zeta. split; [reflexivity|]. split.
  - rewrite validate_result, validateOutcome_result, create_table, lookup_insert_eq.
    simpl. rewrite (bool_decide_eq_true_2 (newSignature src = newSignature src)) by done.
    by rewrite andb_true_r.
  - intros k Hk. by rewrite create_table, lookup_insert_ne.
Qed.

(** X2.  After a refresh answered 200, the same credentials are accepted at
    every time up to 30 minutes after the clock value of the reset, and at no
    later time. *)
Theorem refreshed_session_validates tv tr body w clock :
  status (refreshDeskSession tv tr body w).1 = 200 ->
  (validateDeskSession clock (body_deskId body) (body_signature body)
     (refreshDeskSession tv tr body w).2).1
  = bool_decide (clock <= tr + 30 * 60 * 1000).
Proof.
  rewrite refresh_response, validate_result, validateOutcome_result, refresh_table.
  unfold refreshOutcome, validateOutcome.
  destruct (deskSessions w !! body_deskId body) as [s|] eqn:Hs; [|discriminate].
  destruct (decide (expiresAt s < tv)); [discriminate|].
  destruct (bool_decide (signature s = body_signature body)) eqn:Hsig; [|discriminate].
  intros _. simpl. rewrite Hs, lookup_insert_eq. simpl.
  apply bool_decide_eq_true in Hsig.
  rewrite (bool_decide_eq_true_2 (signature s = body_signature body)) by done.
  by rewrite andb_true_r.
Qed.

Lemma sweepTable_lookup_eq now t k :
  sweepTable now t !! k
  = match t !! k with
    | Some s => if decide (expiresAt s < now) then None else Some s
    | None => None
    end.
Proof.
  apply option_eq. intros s. rewrite sweepTable_lookup.
  destruct (t !! k) as [s0|]; [|split; [by intros [? _]|done]].
  destruct (decide (expiresAt s0 < now)) as [Hexp|Hlive].
  - split; [|done]. intros [[= <-] Hs]. contradiction.
  - split; [by intros [? _]|]. intros [= <-]. done.
Qed.

Lemma validate_lookup now id sig t k :
  (validateOutcome now id sig t).2 !! k
  = match t !! k with
    | Some s => if decide (k = id /\ expiresAt s < now) then None else Some s
    | None => None
    end.
Proof.
  unfold validateOutcome. destruct (t !! id) as [s0|] eqn:Hid.
  - destruct (decide (expiresAt s0 < now)) as [Hexp|Hlive]; simpl.
    + destruct (decide (k = id)) as [->|Hne].
      * rewrite lookup_delete_eq, Hid. by rewrite decide_True.
      * rewrite lookup_delete_ne by done. destruct (t !! k); [|done].
        rewrite decide_False; [done|tauto].
    + destruct (t !! k) as [s|] eqn:Hk; [|done].
      rewrite decide_False; [done|]. intros [-> Hexp]. congruence.
  - simpl. destruct (t !! k) as [s|] eqn:Hk; [|done].
    rewrite decide_False; [done|]. intros [-> _]. congruence.
Qed.

(** X3.  A sweep changes the outcome of no validation made at the time of
    the sweep or later, and it does not matter which of the two runs first:
    the table is the same afterwards. *)
Theorem sweep_transparent_to_validation now clock id sig w :
  now <= clock ->
  (validateDeskSession clock id sig (sweep now w).2).1
  = (validateDeskSession clock id sig w).1
  /\ deskSessions (validateDeskSession clock id sig (sweep now w).2).2
     = deskSessions (sweep now (validateDeskSession clock id sig w).2).2.
Proof.
  intros Hle. rewrite !validate_result, !validate_table. simpl. split.
  - rewrite !validateOutcome_result, sweepTable_lookup_eq.
    destruct (deskSessions w !! id) as [s|]; [|done].
    destruct (decide (expiresAt s < now)); [|done].
    rewrite (bool_decide_eq_false_2 (clock <= expiresAt s)) by lia. done.
  - rewrite validate_table. apply map_eq. intros k.
    rewrite validate_lookup, !sweepTable_lookup_eq, validate_lookup.
    destruct (deskSessions w !! k) as [s|]; [|done].
    destruct (decide (expiresAt s < now)) as [Hexp|Hlive].
    + destruct (decide (k = id /\ expiresAt s < clock)); [done|].
      by rewrite decide_True.
    + destruct (decide (k = id /\ expiresAt s < clock)); [done|].
      by rewrite decide_False.
Qed.

(** X4.  A sweep only removes: what the table holds afterwards it held
    before.  A sweep after an earlier sweep leaves what the later one alone
    leaves; in particular a second sweep at the same time removes nothing. *)
Theorem sweep_after_sweep early late w :
  early <= late ->
  deskSessions (sweep late (sweep early w).2).2 = deskSessions (sweep late w).2
  /\ deskSessions (sweep early (sweep early w).2).2 = deskSessions (sweep early w).2
  /\ deskSessions (sweep early w).2 ⊆ deskSessions w.
Proof.
  intros Hle. simpl. split; [|split].
  - apply map_eq. intros k. rewrite !sweepTable_lookup_eq.
    destruct (deskSessions w !! k) as [s|]; [|done].
    destruct (decide (expiresAt s < early)); [|done].
    by rewrite decide_True by lia.
  - apply map_eq. intros k. rewrite !sweepTable_lookup_eq.
    destruct (deskSessions w !! k) as [s|]; [|done].
    destruct (decide (expiresAt s < early)) as [|Hlive]; [done|].
    by rewrite decide_False.
  - rewrite sweepTable_filter. apply map_filter_subseteq.
Qed.

Lemma created_wellFormed (src : Entropy) now :
  wellFormed (newId src)
    (mkDeskSession (newId src) (newSignature src) now (now + SESSION_EXPIRY)).
Proof.
  unfold wellFormed. cbn [deskId signature]. unfold newId, newSignature.
  rewrite !toString_hex_length, !randomBytes_length, !toString_hex_allHex. done.
Qed.

Lemma perform_wellFormed w op :
  map_Forall wellFormed (deskSessions w) ->
  map_Forall wellFormed (deskSessions (perform w op)).
Proof.
  intros Hw. destruct op as [src now|now id sig|tv tr body|now]; unfold perform.
  - rewrite create_table. apply map_Forall_insert_2; [apply created_wellFormed|done].
  - intros k s. rewrite validate_table, validate_lookup.
    destruct (deskSessions w !! k) as [s0|] eqn:Hk; [|done].
    destruct (decide _); [done|]. intros [= <-]. by apply (Hw k).
  - rewrite refresh_table. unfold refreshOutcome.
    destruct (validateOutcome tv (body_deskId body) (body_signature body)
                (deskSessions w)) as [ok t'] eqn:Ht'.
    assert (Ht : map_Forall wellFormed t').
    { intros k s. change t' with (ok, t').2. rewrite <- Ht', validate_lookup.
      destruct (deskSessions w !! k) as [s0|] eqn:Hk; [|done].
      destruct (decide _); [done|]. intros [= <-]. by apply (Hw k). }
    destruct ok; simpl; [|done].
    destruct (t' !! body_deskId body) as [s|] eqn:Hs; [|done].
    apply map_Forall_insert_2; [|done]. by apply (Ht _ s).
  - simpl. intros k s [Hk _]%sweepTable_lookup. by apply (Hw k).
Qed.

Lemma perform_size w op :
  (size (deskSessions (perform w op))
   <= size (deskSessions w) + (if is_create op then 1 else 0))%nat.
Proof.
  assert (Hval : forall now id sig t,
    (size (validateOutcome now id sig t).2 <= size t)%nat).
  { intros now id sig t. unfold validateOutcome.
    destruct (t !! id) as [s|]; [|done].
    destruct (decide _); simpl; [|done].
    apply map_subseteq_size, delete_subseteq. }
  destruct op as [src now|now id sig|tv tr body|now]; unfold perform, is_create.
  - rewrite create_table, map_size_insert.
    destruct (deskSessions w !! newId src); unfold id; lia.
  - rewrite validate_table. specialize (Hval now id sig (deskSessions w)). lia.
  - rewrite refresh_table. unfold refreshOutcome.
    specialize (Hval tv (body_deskId body) (body_signature body) (deskSessions w)).
    destruct (validateOutcome tv (body_deskId body) (body_signature body)
                (deskSessions w)) as [ok t']. simpl in Hval.
    destruct ok; simpl; [|lia].
    destruct (t' !! body_deskId body) as [s|] eqn:Hs; [|lia].
    rewrite map_size_insert, Hs. unfold id. lia.
  - simpl. rewrite sweepTable_filter.
    pose proof (map_subseteq_size _ _
      (map_filter_subseteq (fun entry : string * DeskSession => ~ expiresAt entry.2 < now)
         (deskSessions w))). lia.
Qed.

(** X5.  Whatever requests, validations and sweeps the registry has served
    since the process started, every record of the table is stored under its
    own [deskId], which is 32 hexadecimal characters, and has a signature of
    64 hexadecimal characters; and the table holds no more records than
    there were create requests. *)
Theorem table_invariant (ops : list Op) :
  map_Forall wellFormed (deskSessions (performAll startWorld ops))
  /\ (size (deskSessions (performAll startWorld ops))
      <= List.length (List.filter is_create ops))%nat.
Proof.
  assert (Hgen : forall ops w,
    map_Forall wellFormed (deskSessions w) ->
    map_Forall wellFormed (deskSessions (performAll w ops))
    /\ (size (deskSessions (performAll w ops))
        <= size (deskSessions w) + List.length (List.filter is_create ops))%nat).
  { clear ops. induction ops as [|op ops IH]; intros w Hw; simpl.
    - split; [done|lia].
    - destruct (IH (perform w op) (perform_wellFormed w op Hw)) as [Hwf Hsize].
      split; [done|]. pose proof (perform_size w op) as Hop.
      unfold performAll in *. simpl. destruct (is_create op); simpl in *; lia. }
  destruct (Hgen ops startWorld) as [Hwf Hsize]; [apply map_Forall_empty|].
  split; [done|]. exact Hsize.
Qed.

(** X6.  Validating or refreshing one session, whatever the outcome, leaves
    every other entry of the table as it was, and so changes the outcome of
    no validation of another session. *)
Theorem sessions_do_not_interfere now id sig tv tr body w k :
  k <> id ->
  k <> body_deskId body ->
  deskSessions (validateDeskSession now id sig w).2 !! k = deskSessions w !! k
  /\ deskSessions (refreshDeskSession tv tr body w).2 !! k = deskSessions w !! k
  /\ (forall clock sig',
        (validateDeskSession clock k sig' (validateDeskSession now id sig w).2).1
        = (validateDeskSession clock k sig' w).1
        /\ (validateDeskSession clock k sig' (refreshDeskSession tv tr body w).2).1
           = (validateDeskSession clock k sig' w).1).
Proof.
  intros Hid Hbody.
  assert (Hv : deskSessions (validateDeskSession now id sig w).2 !! k
               = deskSessions w !! k).
  { rewrite validate_table, validate_lookup.
    destruct (deskSessions w !! k); [|done]. rewrite decide_False; [done|tauto]. }
  assert (Hr : deskSessions (refreshDeskSession tv tr body w).2 !! k
               = deskSessions w !! k).
  { rewrite refresh_table. unfold refreshOutcome.
    destruct (validateOutcome tv (body_deskId body) (body_signature body)
                (deskSessions w)) as [ok t'] eqn:Ht'.
    assert (Hk : t' !! k = deskSessions w !! k).
    { change t' with (ok, t').2. rewrite <- Ht', validate_lookup.
      destruct (deskSessions w !! k); [|done]. rewrite decide_False; [done|tauto]. }
    destruct ok; simpl; [|done].
    destruct (t' !! body_deskId body); [|done]. by rewrite lookup_insert_ne. }
  split; [done|]. split; [done|]. intros clock sig'.
  by rewrite !validate_result, !validateOutcome_result, Hv, Hr.
Qed.

(** X7.  The hexadecimal form of a buffer has two characters per byte, and
    two buffers have the same form only if they are the same bytes: ids and
    signatures made from different random bytes differ. *)
Theorem toString_hex_injective (buf1 buf2 : list Byte.byte) :
  String.length (toString_hex buf1) = (2 * List.length buf1)%nat
  /\ (toString_hex buf1 = toString_hex buf2 <-> buf1 = buf2).
Proof.
  split; [apply toString_hex_length|]. split; [|by intros ->].
  intros Heq. pose proof (fromHex_toString_hex buf1) as H1.
  rewrite Heq, fromHex_toString_hex in H1. by injection H1.
Qed.

End RegistryComposition.

(** ** The scanner page: what it sends and when *)

Section ScannerFurther.

Import Scanner ScannerTrace.

Variable JSON_parse : string -> option Json.
Variable trim : string -> string.

#[local] Abbreviation step := (Scanner.step JSON_parse trim).
#[local] Abbreviation run := (Scanner.run JSON_parse trim).
#[local] Abbreviation onScanSuccess := (Scanner.onScanSuccess JSON_parse trim).
#[local] Abbreviation sendManual := (Scanner.sendManual trim).

Implicit Types (c : Client) (ev : Event) (evs : list Event).

(** *** The debounce *)

Lemma onScanSuccess_lastScan now text c :
  lastScanTsRef (onScanSuccess now text c).1
  = if decide (now - lastScanTsRef c < 1500) then lastScanTsRef c else now.
Proof.
  unfold Scanner.onScanSuccess.
  destruct (decide (now - lastScanTsRef c < 1500)); [done|]. simpl.
  destruct (pausedRef c); [done|].
  destruct (negb (connectedRef c) || negb (bool_decide (is_Some (socketRef c)))); [done|].
  destruct (JSON_parse text) as [[]|]; try done;
    destruct (negb _ || negb _); try done; by destruct (get_prop _ _).
Qed.

Lemma step_lastScan_mono c ev :
  lastScanTsRef c <= lastScanTsRef (step c ev).1.
Proof.
  destruct ev; simpl;
    try (rewrite onScanSuccess_lastScan; destruct (decide _); lia);
    unfold stopScanner, startScanner, startScanner_settled, stopScanner_settled,
      Scanner.sendManual; simpl;
    repeat case_match; simplify_eq; simpl; lia.
Qed.

Lemma run_lastScan_mono c evs :
  lastScanTsRef c <= lastScanTsRef (run c evs).1.
Proof.
  revert c. induction evs as [|ev evs IH]; intros c; simpl; [lia|].
  pose proof (step_lastScan_mono c ev) as Hstep.
  destruct (step c ev) as [c1 out]. specialize (IH c1).
  destruct (run c1 evs) as [c2 trace]. simpl in *. lia.
Qed.

(** X8.  The time of the last scan never goes back, whatever the clock
    does; and once a decoded text has made [onScanSuccess] do anything (send
    or toast), no decoded text that comes less than 1500 ms after it does
    anything, whatever happened on the page in between. *)
Theorem camera_scans_debounced c now text evs now' text' :
  (onScanSuccess now text c).2 <> [] ->
  now' - now < 1500 ->
  lastScanTsRef c <= lastScanTsRef (run c evs).1
  /\ (onScanSuccess now' text' (run (onScanSuccess now text c).1 evs).1).2 = [].
Proof.
  intros Hout Hsoon. split; [apply run_lastScan_mono|].
  assert (Hlast : lastScanTsRef (onScanSuccess now text c).1 = now).
  { rewrite onScanSuccess_lastScan. destruct (decide _) as [Hd|]; [|done].
    exfalso. apply Hout. unfold Scanner.onScanSuccess. by rewrite decide_True. }
  pose proof (run_lastScan_mono (onScanSuccess now text c).1 evs) as Hmono.
  rewrite Hlast in Hmono.
  unfold Scanner.onScanSuccess at 1. rewrite decide_True by lia. done.
Qed.

(** *** The connected flag *)

Lemma onScanSuccess_disconnected now text c :
  connectedRef c = false ->
  (onScanSuccess now text c).2 = []
  /\ connectedRef (onScanSuccess now text c).1 = false.
Proof.
  intros Hc. unfold Scanner.onScanSuccess.
  destruct (decide (now - lastScanTsRef c < 1500)); [done|]. simpl.
  destruct (pausedRef c); [done|]. by rewrite Hc.
Qed.

Lemma step_keeps_disconnected c ev :
  is_joined ev = false -> connectedRef c = false ->
  connectedRef (step c ev).1 = false.
Proof.
  intros Hev Hc. destruct ev; try discriminate Hev; simpl;
    try (by apply onScanSuccess_disconnected);
    unfold stopScanner, startScanner, startScanner_settled, stopScanner_settled,
      Scanner.sendManual; simpl;
    repeat case_match; simplify_eq; simpl; done.
Qed.

(** X9.  [desk-disconnected] clears the connected flag, and from then on,
    whatever happens on the page, as long as no [scanner-joined] arrives no
    run of [onScanSuccess] sends or shows anything. *)
Theorem disconnect_blocks_camera_scans c evs :
  forallb (fun ev => negb (is_joined ev)) evs = true ->
  let gone := (step c desk_disconnected).1 in
  connectedRef gone = false
  /\ connectedRef (run gone evs).1 = false
  /\ forall ev out, (ev, out) ∈ (run gone evs).2 ->
                    is_camera_decoded ev = true -> out = [].
Proof.
  intros Hevs. cbv zeta. split; [reflexivity|].
  assert (Hgen : forall evs c0,
    connectedRef c0 = false ->
    forallb (fun ev => negb (is_joined ev)) evs = true ->
    connectedRef (run c0 evs).1 = false
    /\ forall ev out, (ev, out) ∈ (run c0 evs).2 ->
                      is_camera_decoded ev = true -> out = []).
  { clear. induction evs as [|ev evs IH]; intros c0 Hc Hevs; simpl.
    - split; [done|]. intros ev out Hin. by apply elem_of_nil in Hin.
    - simpl in Hevs. apply andb_true_iff in Hevs as [Hev Hevs].
      apply negb_true_iff in Hev.
      pose proof (step_keeps_disconnected c0 ev Hev Hc) as Hc1.
      assert (Hout : is_camera_decoded ev = true -> (step c0 ev).2 = []).
      { destruct ev; try discriminate. intros _. by apply onScanSuccess_disconnected. }
      destruct (step c0 ev) as [c1 out1]. simpl in *.
      destruct (IH c1 Hc1 Hevs) as [Hc2 Hsilent].
      destruct (run c1 evs) as [c2 trace]. simpl in *.
      split; [done|]. intros ev' out' Hin Hcam.
      apply elem_of_cons in Hin as [Heq|Hin]; [|by eapply Hsilent].
      injection Heq as -> ->. by apply Hout. }
  by apply Hgen.
Qed.

(** *** The socket *)

Lemma step_socket c ev :
  socketRef (step c ev).1 = socketRef c
  /\ (socketRef c = None ->
      forallb (fun e => negb (is_socket_emit e)) (step c ev).2 = true).
Proof.
  destruct ev; simpl;
    unfold stopScanner, startScanner, startScanner_settled, stopScanner_settled,
      Scanner.sendManual, Scanner.onScanSuccess; simpl;
    repeat case_match; simplify_eq; simpl; split; try done;
    intros Hnone; simplify_eq; simpl in *; try done.
  all: rewrite Hnone in *; simpl in *; rewrite ?orb_true_r in *; done.
Qed.

(** X10.  A page opened from a link that lacks [deskId] or [signature]
    gets no socket and shows "Invalid scanner link"; whatever happens on it
    afterwards (camera scans, manual sends), it never sends a message. *)
Theorem incomplete_link_sends_nothing (deskId signature : option string) evs :
  missing deskId || missing signature = true ->
  let opened := mount deskId signature initial in
  opened.2 = [toast Failure "Invalid scanner link"]
  /\ socketRef opened.1 = None
  /\ socketRef (run opened.1 evs).1 = None
  /\ forall ev out, (ev, out) ∈ (run opened.1 evs).2 ->
                    forallb (fun e => negb (is_socket_emit e)) out = true.
Proof.
  intros Hmiss. cbv zeta. unfold mount. rewrite Hmiss. simpl.
  split; [done|]. split; [done|].
  assert (Hgen : forall evs c0,
    socketRef c0 = None ->
    socketRef (run c0 evs).1 = None
    /\ forall ev out, (ev, out) ∈ (run c0 evs).2 ->
                      forallb (fun e => negb (is_socket_emit e)) out = true).
  { clear. induction evs as [|ev evs IH]; intros c0 Hc; simpl.
    - split; [done|]. intros ev out Hin. by apply elem_of_nil in Hin.
    - destruct (step_socket c0 ev) as [Hsame Hquiet].
      destruct (step c0 ev) as [c1 out1]. simpl in *.
      destruct (IH c1) as [Hc2 Hsilent]; [congruence|].
      destruct (run c1 evs) as [c2 trace]. simpl in *.
      split; [done|]. intros ev' out' Hin.
      apply elem_of_cons in Hin as [Heq|Hin]; [|by eapply Hsilent].
      injection Heq as -> ->. by apply Hquiet. }
  by apply Hgen.
Qed.

(** *** The camera instance *)

Lemma step_startsLeft c ev :
  (List.length (List.filter is_camera_start (step c ev).2)
   + startsLeft (step c ev).1
   <= startsLeft c + (if is_stop_settled ev then 1 else 0))%nat.
Proof.
  unfold startsLeft.
  destruct ev; simpl;
    try (rewrite (surjective_pairing (onScanSuccess now decodedText c)));
    unfold stopScanner, startScanner, startScanner_settled, stopScanner_settled,
      Scanner.sendManual, Scanner.onScanSuccess; simpl;
    repeat case_match; simplify_eq; simpl in *; simplify_eq; lia.
Qed.

(** X11.  The page starts a camera only when it holds none: over any
    events, the camera is started at most once more than stops have settled,
    and not at all before a stop settles if the page holds an instance at the
    outset. *)
Theorem camera_started_once_per_stop c evs :
  (cameraStarts (run c evs).2 + startsLeft (run c evs).1
   <= startsLeft c + stopsSettled evs)%nat.
Proof.
  unfold cameraStarts, stopsSettled. revert c.
  induction evs as [|ev evs IH]; intros c; simpl; [lia|].
  pose proof (step_startsLeft c ev) as Hstep.
  destruct (step c ev) as [c1 out]. specialize (IH c1).
  destruct (run c1 evs) as [c2 trace]. simpl in *.
  rewrite List.filter_app, length_app.
  destruct (is_stop_settled ev); simpl; lia.
Qed.

(** *** What the two paths send *)

Lemma is_participant_spec (v : option Json) :
  is_participant v = true <-> v = Some (JStr "PARTICIPANT").
Proof.
  destruct v as [[]|]; simpl; try (split; [discriminate|by intros [= ]]).
  rewrite String.eqb_eq. split; [by intros ->|by intros [= ->]].
Qed.

(** X12.  [onScanSuccess] sends a [scan-participant] with a given
    [uniqueId] exactly when the debounce has passed, the page is not paused,
    is connected and has its socket, and either the text parses to a value
    other than [null] whose [type] is ["PARTICIPANT"] and whose [uniqueId] is
    that truthy value, or the text does not parse (or parses to [null]) and
    the id is the trimmed text, which may be empty. *)
Theorem camera_scan_payload now text c (uid : Json) :
  In (emit_scan_participant uid) (onScanSuccess now text c).2
  <-> (1500 <= now - lastScanTsRef c /\ pausedRef c = false
       /\ connectedRef c = true /\ is_Some (socketRef c))
      /\ ((exists parsed,
             JSON_parse text = Some parsed /\ parsed <> JNull
             /\ get_prop parsed "type" = Some (JStr "PARTICIPANT")
             /\ get_prop parsed "uniqueId" = Some uid
             /\ truthy (Some uid) = true)
          \/ ((JSON_parse text = None \/ JSON_parse text = Some JNull)
              /\ uid = JStr (trim text))).
Proof.
  unfold Scanner.onScanSuccess.
  destruct (decide (now - lastScanTsRef c < 1500)) as [Hd|Hd];
    [simpl; split; [done|intros [[? _] _]; lia]|].
  simpl. destruct (pausedRef c); [simpl; split; [done|by intros [(_ & ? & _) _]]|].
  destruct (connectedRef c); [|simpl; split; [done|by intros [(_ & _ & ? & _) _]]].
  simpl. destruct (socketRef c) as [sock|];
    [|simpl; split; [done|by intros [(_ & _ & _ & [? ?]) _]]].
  rewrite bool_decide_eq_true_2 by eauto. simpl.
  enough (Hcore :
    In (emit_scan_participant uid)
      (match JSON_parse text with
       | Some JNull | None =>
           (setLastScanTs now c, [emit_scan_participant (JStr (trim text))])
       | Some parsed =>
           if negb (is_participant (get_prop parsed "type"))
              || negb (truthy (get_prop parsed "uniqueId"))
           then (setLastScanTs now c, [toast Failure "Invalid participant QR"])
           else match get_prop parsed "uniqueId" with
                | Some u => (setLastScanTs now c, [emit_scan_participant u])
                | None => (setLastScanTs now c, [])
                end
       end).2
    <-> (exists parsed,
           JSON_parse text = Some parsed /\ parsed <> JNull
           /\ get_prop parsed "type" = Some (JStr "PARTICIPANT")
           /\ get_prop parsed "uniqueId" = Some uid
           /\ truthy (Some uid) = true)
        \/ ((JSON_parse text = None \/ JSON_parse text = Some JNull)
            /\ uid = JStr (trim text))).
  { rewrite Hcore. split; [|by intros [_ ?]].
    intros Hp. split; [|done]. repeat split; eauto; lia. }
  destruct (JSON_parse text) as [parsed|] eqn:Hparse; cycle 1.
  { simpl. split.
    - intros [[= ->]|[]]. right. split; [by left|done].
    - intros [(p0 & Hp0 & _)|[_ ->]]; [discriminate|by left]. }
  assert (Hnull : parsed = JNull \/ parsed <> JNull)
    by (destruct parsed; [by left|by right..]).
  destruct Hnull as [->|Hnn].
  { simpl. split.
    - intros [[= ->]|[]]. right. split; [by right|done].
    - intros [(p0 & [= <-] & Hp0 & _)|[_ ->]]; [done|by left]. }
  enough (Hobj :
    In (emit_scan_participant uid)
      (if negb (is_participant (get_prop parsed "type"))
          || negb (truthy (get_prop parsed "uniqueId"))
       then (setLastScanTs now c, [toast Failure "Invalid participant QR"])
       else match get_prop parsed "uniqueId" with
            | Some u => (setLastScanTs now c, [emit_scan_participant u])
            | None => (setLastScanTs now c, [])
            end).2
    <-> (exists parsed0,
           Some parsed = Some parsed0 /\ parsed0 <> JNull
           /\ get_prop parsed0 "type" = Some (JStr "PARTICIPANT")
           /\ get_prop parsed0 "uniqueId" = Some uid
           /\ truthy (Some uid) = true)
        \/ ((Some parsed = None \/ Some parsed = Some JNull)
            /\ uid = JStr (trim text))).
  { destruct parsed; [done|exact Hobj..]. }
  assert (Hright : ~ ((Some parsed = None \/ Some parsed = Some JNull)
                      /\ uid = JStr (trim text))).
  { intros [[?|[= ?]] _]; done. }
  destruct (is_participant (get_prop parsed "type")) eqn:Htype;
    cbn [negb orb snd In].
  - apply is_participant_spec in Htype.
    destruct (get_prop parsed "uniqueId") as [u|] eqn:Hu.
    + destruct (truthy (Some u)) eqn:Htruthy; cbn [negb orb snd In].
      * split.
        -- intros [[= ->]|[]]. left. by exists parsed.
        -- intros [(p0 & [= <-] & _ & _ & Hu' & _)|?]; [|done].
           left. congruence.
      * split; [by intros [?|[]]|].
        intros [(p0 & [= <-] & _ & _ & Hu' & Ht)|?]; [|done]. congruence.
    + cbn [truthy negb orb snd In]. split; [by intros [?|[]]|].
      intros [(p0 & [= <-] & _ & _ & Hu' & _)|?]; [|done]. congruence.
  - split; [by intros [?|[]]|].
    intros [(p0 & [= <-] & _ & Ht & _)|?]; [|done].
    apply is_participant_spec in Ht. congruence.
Qed.

(** X13.  The Send button does nothing at all when the trimmed input is
    empty.  When it is not, the input box is cleared, with or without a
    socket, so that without a socket the typed id is dropped unsent.  The
    button never sends an empty id. *)
Theorem manual_send_edges c :
  (trim (manualInput c) = "" -> sendManual c = (c, []))
  /\ (trim (manualInput c) <> "" ->
      (sendManual c).1 = setManualInput "" c
      /\ (socketRef c = None -> (sendManual c).2 = []))
  /\ ~ In (emit_scan_participant (JStr "")) (sendManual c).2.
Proof.
  unfold Scanner.sendManual.
  destruct (String.eqb (trim (manualInput c)) "") eqn:Hempty.
  - apply String.eqb_eq in Hempty. split; [done|]. split; [done|]. simpl. tauto.
  - apply String.eqb_neq in Hempty. split; [done|]. split.
    + intros _. split; [done|]. by intros ->.
    + simpl. destruct (socketRef c); simpl; [|tauto].
      intros [[= Heq]|[]]. congruence.
Qed.

End ScannerFurther.

(** ** The debug log of the scanner page *)

Section DebugLogFacts.

Import DebugLog.

Lemma slice_last_length (n : nat) (l : list string) :
  (length (slice_last n l) <= n)%nat.
Proof. unfold slice_last. rewrite length_drop. lia. Qed.

Lemma addDebugLog_last_ten (time msg : string) (l : list string) :
  addDebugLog time msg (slice_last 10 l)
  = slice_last 10 (l ++ [time +:+ ": " +:+ msg]).
Proof.
  unfold addDebugLog, slice_last.
  rewrite drop_drop, length_drop, length_app. simpl.
  rewrite drop_app_le by lia. f_equal. f_equal. lia.
Qed.

(** X14.  The debug log starts empty and holds, after any number of calls
    of [addDebugLog], the lines of the last ten calls in their order, and so
    never more than ten lines. *)
Theorem debug_log_keeps_last_ten (calls : list (string * string)) :
  addAll calls [] = slice_last 10 (List.map line calls)
  /\ (length (addAll calls []) <= 10)%nat.
Proof.
  assert (Heq : addAll calls [] = slice_last 10 (List.map line calls)).
  { induction calls as [|call calls IH] using rev_ind; [reflexivity|].
    unfold addAll in *. rewrite foldl_snoc, IH, List.map_app. simpl.
    apply addDebugLog_last_ten. }
  split; [done|]. rewrite Heq. apply slice_last_length.
Qed.

End DebugLogFacts.

(** ** The CORS origin check *)

Section CorsFacts.

Import Cors.

Lemma append_cons (a : ascii) (s r : string) :
  String a s +:+ r = String a (s +:+ r).
Proof. reflexivity. Qed.

Lemma append_nil (r : string) : "" +:+ r = r.
Proof. reflexivity. Qed.

Lemma stripPrefix_app (p s : string) : stripPrefix p (p +:+ s) = Some s.
Proof.
  induction p as [|a p IH]; [done|].
  rewrite append_cons. simpl. by rewrite Ascii.eqb_refl.
Qed.

Lemma stripPrefix_Some (p s rest : string) :
  stripPrefix p s = Some rest -> s = p +:+ rest.
Proof.
  revert s. induction p as [|a p IH]; intros s; simpl; [by intros [= ->]|].
  destruct s as [|b s]; [done|].
  destruct (Ascii.eqb a b) eqn:Hab; [|done].
  apply Ascii.eqb_eq in Hab as ->. intros ->%IH. done.
Qed.

Lemma take_skip_digits (s : string) :
  takeDigits s +:+ skipDigits s = s /\ allDigits (takeDigits s) = true.
Proof.
  induction s as [|a s [IH1 IH2]]; simpl; [done|].
  destruct (isDigit a) eqn:Ha; [|done].
  rewrite append_cons, IH1. simpl. by rewrite Ha, IH2.
Qed.

(** After all the digits of [d] the rest [r] is left, if [r] does not go on
    with a digit. *)
Lemma skipDigits_app (d r : string) :
  allDigits d = true ->
  match r with String b _ => isDigit b = false | EmptyString => True end ->
  skipDigits (d +:+ r) = r.
Proof.
  intros Hd Hr. induction d as [|a d IH].
  - rewrite append_nil. destruct r as [|b r]; [done|]. simpl. by rewrite Hr.
  - simpl in Hd. apply andb_true_iff in Hd as [Ha Hd].
    rewrite append_cons. simpl. rewrite Ha. by apply IH.
Qed.

(** [test] decides the language of a pattern whose [\d+] are each followed
    by something that is no digit. *)
Lemma test_Matches (pattern : list Token) (s : string) :
  settled pattern = true -> (test pattern s = true <-> Matches pattern s).
Proof.
  revert s. induction pattern as [|tok pattern IH]; intros s Hset.
  - simpl. rewrite String.eqb_eq. split; [intros ->; constructor|by inversion 1].
  - destruct tok as [text|].
    + simpl in *. split.
      * destruct (stripPrefix text s) as [rest|] eqn:Hstrip; [|done].
        apply stripPrefix_Some in Hstrip as ->. intros Hrest%IH; [|done].
        by constructor.
      * inversion 1 as [|? ? rest Hrest|]; subst.
        rewrite stripPrefix_app. by apply IH.
    + cbn [settled] in Hset. apply andb_true_iff in Hset as [Hnext Hset].
      cbn [test]. split.
      * destruct s as [|a rest]; [done|].
        destruct (isDigit a) eqn:Ha; [|done]. intros Hrest%IH; [|done].
        destruct (take_skip_digits rest) as [Hsplit Hall].
        rewrite <- Hsplit, <- append_cons.
        apply (matches_digits (String a (takeDigits rest))); [done| |done].
        simpl. by rewrite Ha, Hall.
      * inversion 1 as [| |d ? rest Hd Hall Hrest]; subst.
        destruct d as [|a d]; [done|]. rewrite append_cons.
        simpl in Hall. apply andb_true_iff in Hall as [Ha Hall]. rewrite Ha.
        rewrite skipDigits_app; [by apply IH|done|].
        destruct pattern as [|[[|b text]|] pattern]; try done.
        -- by inversion Hrest.
        -- inversion Hrest; subst. rewrite append_cons.
           by apply negb_true_iff.
Qed.

Ltac invert_matches :=
  repeat match goal with
         | H : Matches (_ :: _) _ |- _ => inversion H; subst; clear H
         | H : Matches [] _ |- _ => inversion H; subst; clear H
         end.

(** X15.  The three patterns for origins on a local network accept exactly
    the texts [http://192.168.A.B:5173], [http://10.A.B.C:5173] and
    [http://172.A.B.C:5173] in which [A], [B] and [C] are non-empty runs of
    decimal digits, of any length and value. *)
Theorem lan_patterns_accept (o : string) :
  (test lan192 o = true <->
     exists a b, (a <> "" /\ allDigits a = true) /\ (b <> "" /\ allDigits b = true)
       /\ o = "http://192.168." +:+ a +:+ "." +:+ b +:+ ":5173")
  /\ (test lan10 o = true <->
     exists a b c, (a <> "" /\ allDigits a = true) /\ (b <> "" /\ allDigits b = true)
       /\ (c <> "" /\ allDigits c = true)
       /\ o = "http://10." +:+ a +:+ "." +:+ b +:+ "." +:+ c +:+ ":5173")
  /\ (test lan172 o = true <->
     exists a b c, (a <> "" /\ allDigits a = true) /\ (b <> "" /\ allDigits b = true)
       /\ (c <> "" /\ allDigits c = true)
       /\ o = "http://172." +:+ a +:+ "." +:+ b +:+ "." +:+ c +:+ ":5173").
Proof.
  rewrite !test_Matches by reflexivity. unfold lan192, lan10, lan172.
  split; [|split]; split.
  - intros H. invert_matches. eexists _, _. repeat split; eauto.
  - intros (a & b & [Ha Ha'] & [Hb Hb'] & ->).
    change ":5173" with (":5173" +:+ ""). repeat (constructor; try done).
  - intros H. invert_matches. eexists _, _, _. repeat split; eauto.
  - intros (a & b & c & [Ha Ha'] & [Hb Hb'] & [Hc Hc'] & ->).
    change ":5173" with (":5173" +:+ ""). repeat (constructor; try done).
  - intros H. invert_matches. eexists _, _, _. repeat split; eauto.
  - intros (a & b & c & [Ha Ha'] & [Hb Hb'] & [Hc Hc'] & ->).
    change ":5173" with (":5173" +:+ ""). repeat (constructor; try done).
Qed.

(** X16.  A request without an origin, or with an empty one, is let
    through.  An [https] origin is let through only if it is the deployed
    site or the configured [FRONTEND_URL]; every refusal carries the one
    error "Not allowed by CORS". *)
Theorem cors_origin_edges (FRONTEND_URL : option string) (rest : string) :
  corsOrigin FRONTEND_URL None = allowed
  /\ corsOrigin FRONTEND_URL (Some "") = allowed
  /\ (corsOrigin FRONTEND_URL (Some ("https://" +:+ rest)) = allowed
      <-> "https://" +:+ rest = "https://infinitum-hostel.vercel.app"
          \/ FRONTEND_URL = Some ("https://" +:+ rest))
  /\ (forall o, corsOrigin FRONTEND_URL (Some o) <> allowed ->
                corsOrigin FRONTEND_URL (Some o) = refused "Not allowed by CORS").
Proof.
  split; [reflexivity|]. split; [reflexivity|]. split.
  - unfold corsOrigin, allowedOrigins.
    set (o := "https://" +:+ rest).
    assert (Ho : o = String "h" (String "t" (String "t" (String "p"
                   (String "s" (String ":" (String "/" (String "/" rest))))))))
      by reflexivity.
    assert (Hne : String.eqb o "" = false) by (by rewrite Ho).
    assert (Hlocal : String.eqb "http://localhost:5173" o = false) by (by rewrite Ho).
    assert (H192 : test lan192 o = false) by (by rewrite Ho).
    assert (H10 : test lan10 o = false) by (by rewrite Ho).
    assert (H172 : test lan172 o = false) by (by rewrite Ho).
    rewrite Hne. cbn [app existsb admits]. rewrite Hlocal. cbn [orb].
    rewrite existsb_app. cbn [existsb admits]. rewrite H192, H10, H172.
    rewrite !orb_false_r.
    destruct (String.eqb "https://infinitum-hostel.vercel.app" o) eqn:Hsite.
    + apply String.eqb_eq in Hsite. rewrite orb_true_r. split; [|done].
      intros _. by left.
    + apply String.eqb_neq in Hsite. rewrite orb_false_r.
      destruct FRONTEND_URL as [url|]; cbn [existsb].
      * destruct (String.eqb url "") eqn:Hurl; cbn [existsb admits].
        -- apply String.eqb_eq in Hurl as ->. split; [done|].
           intros [?|[= ?]]; done.
        -- rewrite orb_false_r. destruct (String.eqb url o) eqn:Huo.
           ++ apply String.eqb_eq in Huo as ->. split; [|done]. intros _. by right.
           ++ apply String.eqb_neq in Huo. split; [done|].
              intros [?|[= ?]]; done.
      * split; [done|]. intros [?|?]; done.
  - intros o. unfold corsOrigin. destruct (String.eqb o ""); [done|].
    by destruct (existsb _ _).
Qed.

End CorsFacts.

(** ** The logger wrapper *)

Section LoggerFacts.

Import Logger.

Implicit Types (message : Json) (fields meta : list (string * Json)).

(** A property of a spread result is the last one of that name among the
    spread fields, or else the target's. *)
Lemma spread_lookup fields (target : gmap string Json) (k : string) :
  spread fields target !! k
  = match assoc_field k fields with
    | Some v => Some v
    | None => target !! k
    end.
Proof.
  unfold spread. revert target.
  induction fields as [|[k0 v0] fields IH]; intros target; simpl; [done|].
  rewrite IH. destruct (assoc_field k fields); [done|].
  destruct (String.eqb k0 k) eqn:Hk.
  - apply String.eqb_eq in Hk as ->. by rewrite lookup_insert_eq.
  - apply String.eqb_neq in Hk. by rewrite lookup_insert_ne.
Qed.

Lemma base_lookup message (labels : list (string * Json)) (k : string) :
  base message labels !! k
  = if decide (k = "message") then Some message
    else if decide (k = "labels") then Some (JObj labels)
    else None.
Proof.
  unfold base. destruct (decide (k = "message")) as [->|Hm].
  - by rewrite lookup_insert_eq.
  - rewrite lookup_insert_ne by done. destruct (decide (k = "labels")) as [->|Hl].
    + by rewrite lookup_singleton_eq.
    + by rewrite lookup_singleton_ne.
Qed.

(** X17.  The third argument of a logging call is looked at only when the
    second is a string: with anything else the result is the same whatever
    the third is, and when the second is left out, [null], a boolean or a
    number, the bare message is logged and the metadata is lost. *)
Theorem meta_used_only_with_string_id message (uniqueId : option Json)
    (meta1 meta2 : option (list (string * Json))) :
  (forall s, uniqueId <> Some (JStr s)) ->
  logMethod message uniqueId meta1 = logMethod message uniqueId meta2
  /\ match uniqueId with
     | Some (JObj _) | Some (JArr _) => True
     | _ => logMethod message uniqueId meta1 = plain message
     end.
Proof.
  intros Hns. destruct uniqueId as [[]|]; try done. by destruct (Hns s).
Qed.

(** X18.  A call with an object as second argument that has a non-empty
    string [particular] and no [uniqueId], [email], [message] or [labels]
    of its own (as every call of the desk controller has) logs a record with
    the message given, with [particular] as its only label, and with the
    properties of the object; so a [deskId] in the object is a property of
    the record and no label. *)
Theorem object_call_labels message fields (meta : option (list (string * Json)))
    (p : string) :
  assoc_field "particular" fields = Some (JStr p) ->
  p <> "" ->
  assoc_field "uniqueId" fields = None ->
  assoc_field "email" fields = None ->
  assoc_field "message" fields = None ->
  assoc_field "labels" fields = None ->
  exists record,
    logMethod message (Some (JObj fields)) meta = structured record
    /\ record !! "message" = Some message
    /\ record !! "labels" = Some (JObj [("particular", JStr p)])
    /\ (forall k, k <> "message" -> k <> "labels" ->
                  record !! k = assoc_field k fields).
Proof.
  intros Hp Hne Hu He Hm Hl. eexists. split; [reflexivity|].
  cbn [get_prop entries]. rewrite Hp, Hu, He.
  assert (Htruthy : truthy (Some (JStr p)) = true).
  { simpl. apply negb_true_iff. by apply String.eqb_neq. }
  unfold labelIf at 2 3. unfold labelIf. rewrite Htruthy. cbn [app].
  split; [|split].
  - by rewrite spread_lookup, Hm, base_lookup.
  - by rewrite spread_lookup, Hl, base_lookup.
  - intros k Hkm Hkl. rewrite spread_lookup, base_lookup.
    destruct (assoc_field k fields); [done|].
    by rewrite !decide_False.
Qed.

(** X19.  A call with a string as second argument logs a record whose
    labels are, in this order: [uniqueId], set to that string even when it is
    empty; [email], if and only if the metadata has a truthy [email]; and
    [particular], if and only if the metadata has a truthy [particular].
    The metadata is spread over the record last: a [message] or [labels]
    property of its own replaces the message given or the labels. *)
Theorem string_call_record message (s : string) meta :
  exists record,
    logMethod message (Some (JStr s)) (Some meta) = structured record
    /\ record !! "message" = Some (default message (assoc_field "message" meta))
    /\ (assoc_field "labels" meta = None ->
        record !! "labels"
        = Some (JObj (("uniqueId", JStr s)
                      :: match assoc_field "email" meta with
                         | Some e => if truthy (Some e) then [("email", e)] else []
                         | None => []
                         end
                      ++ match assoc_field "particular" meta with
                         | Some q => if truthy (Some q) then [("particular", q)] else []
                         | None => []
                         end)))
    /\ (forall own, assoc_field "labels" meta = Some own ->
                    record !! "labels" = Some own)
    /\ (forall k, k <> "message" -> k <> "labels" ->
                  record !! k = assoc_field k meta).
Proof.
  eexists. split; [reflexivity|]. change (default [] (Some meta)) with meta.
  split; [|split; [|split]].
  - rewrite spread_lookup, base_lookup.
    destruct (assoc_field "message" meta); cbn [default from_option]; done.
  - intros Hl. rewrite spread_lookup, Hl, base_lookup.
    rewrite decide_False by done. rewrite decide_True by done.
    do 2 f_equal. unfold labelIf.
    destruct (assoc_field "email" meta) as [e|];
      [destruct (truthy (Some e))|];
      (destruct (assoc_field "particular" meta) as [q|];
       [destruct (truthy (Some q))|]);
      reflexivity.
  - intros own Hown. by rewrite spread_lookup, Hown.
  - intros k Hkm Hkl. rewrite spread_lookup, base_lookup.
    destruct (assoc_field k meta); [done|]. by rewrite !decide_False.
Qed.

End LoggerFacts.

(** ** The further properties at work on the samples *)

Section FurtherExamples.

Import Registry RegistryOps Scanner ScannerTrace Logger.

Lemma refreshed_session_validates_witness :
  (validateDeskSession 1802500 "d1" "s1"
     (refreshDeskSession 2000 2500 (mkRefreshBody "d1" "s1") sampleWorld).2).1
  = bool_decide (1802500 <= 2500 + 30 * 60 * 1000).
Proof.
  apply (refreshed_session_validates 2000 2500 (mkRefreshBody "d1" "s1")
           sampleWorld 1802500).
  vm_compute. reflexivity.
Defined.

Lemma sweep_transparent_to_validation_witness :
  (validateDeskSession 1801001 "d1" "s1" (sweep 1801001 sampleWorld).2).1
  = (validateDeskSession 1801001 "d1" "s1" sampleWorld).1
  /\ deskSessions (validateDeskSession 1801001 "d1" "s1" (sweep 1801001 sampleWorld).2).2
     = deskSessions (sweep 1801001 (validateDeskSession 1801001 "d1" "s1" sampleWorld).2).2.
Proof.
  apply (sweep_transparent_to_validation 1801001 1801001 "d1" "s1" sampleWorld).
  lia.
Defined.

Lemma sweep_after_sweep_witness :
  deskSessions (sweep 1801001 (sweep 5000 sampleWorld).2).2
  = deskSessions (sweep 1801001 sampleWorld).2.
Proof.
  destruct (sweep_after_sweep 5000 1801001 sampleWorld) as [Hlate _]; [lia|].
  exact Hlate.
Defined.

(** With a second session in the table, a refresh of the first with a wrong
    signature and a validation of it after its expiry leave the second
    one's validation as it was. *)
Lemma sessions_do_not_interfere_witness :
  let w := (createDeskSession countingEntropy 900000 sampleWorld).2 in
  let k := newId countingEntropy in
  let sig' := newSignature countingEntropy in
  (validateDeskSession 1000000 k sig' (validateDeskSession 1801001 "d1" "s1" w).2).1
  = (validateDeskSession 1000000 k sig' w).1
  /\ (validateDeskSession 1000000 k sig'
        (refreshDeskSession 2000 2500 (mkRefreshBody "d1" "zz") w).2).1
     = (validateDeskSession 1000000 k sig' w).1.
Proof.
  cbv zeta.
  destruct (sessions_do_not_interfere 1801001 "d1" "s1" 2000 2500
              (mkRefreshBody "d1" "zz")
              (createDeskSession countingEntropy 900000 sampleWorld).2
              (newId countingEntropy)) as (_ & _ & Hsame).
  - vm_compute. discriminate.
  - vm_compute. discriminate.
  - exact (Hsame 1000000 (newSignature countingEntropy)).
Defined.

Lemma camera_scans_debounced_witness :
  lastScanTsRef scanningPage
  <= lastScanTsRef (Scanner.run parseNothing trimLatin1 scanningPage
                      [desk_disconnected; scanner_joined]).1
  /\ (Scanner.onScanSuccess parseNothing trimLatin1 6499 "B"
        (Scanner.run parseNothing trimLatin1
           (Scanner.onScanSuccess parseNothing trimLatin1 5000 "A" scanningPage).1
           [desk_disconnected; scanner_joined]).1).2 = [].
Proof.
  apply (camera_scans_debounced parseNothing trimLatin1 scanningPage 5000 "A"
           [desk_disconnected; scanner_joined] 6499 "B").
  - vm_compute. discriminate.
  - lia.
Defined.

Lemma disconnect_blocks_camera_scans_witness :
  connectedRef
    (Scanner.run parseNothing trimLatin1
       (Scanner.step parseNothing trimLatin1 scanningPage desk_disconnected).1
       [camera_decoded 5000 "A"; resume_scanning; camera_decoded 9000 "B"]).1
  = false.
Proof.
  destruct (disconnect_blocks_camera_scans parseNothing trimLatin1 scanningPage
              [camera_decoded 5000 "A"; resume_scanning; camera_decoded 9000 "B"]
              eq_refl) as (_ & Hflag & _).
  exact Hflag.
Defined.

Lemma incomplete_link_sends_nothing_witness :
  socketRef
    (Scanner.run parseNothing trimLatin1 (mount (Some "d1") None initial).1
       [scanner_joined; timer_startScanner; start_settled None;
        camera_decoded 5000 "A"; input_changed "P1"; click_send]).1
  = None.
Proof.
  destruct (incomplete_link_sends_nothing parseNothing trimLatin1 (Some "d1") None
              [scanner_joined; timer_startScanner; start_settled None;
               camera_decoded 5000 "A"; input_changed "P1"; click_send]
              eq_refl) as (_ & _ & Hsock & _).
  exact Hsock.
Defined.

(** Even with a socket-less page joined and its camera on, nothing goes out;
    on the linked page the same events send two scans. *)
Example linked_page_sends :
  List.concat (List.map snd
    (Scanner.run parseNothing trimLatin1 (mount (Some "d1") (Some "s1") initial).1
       [scanner_joined; timer_startScanner; start_settled None;
        camera_decoded 5000 "A"; input_changed "P1"; click_send]).2)
  = [set_timeout_startScanner 400; camera_start; toast Success "Camera started";
     emit_scan_participant (JStr "A"); emit_scan_participant (JStr "P1")].
Proof. vm_compute. reflexivity. Qed.

Lemma meta_used_only_with_string_id_witness :
  logMethod (JStr "msg") (Some (JNum 5)) (Some [("particular", JStr "p")])
  = plain (JStr "msg").
Proof.
  destruct (meta_used_only_with_string_id (JStr "msg") (Some (JNum 5))
              (Some [("particular", JStr "p")]) None) as [_ Hplain].
  - intros s. discriminate.
  - exact Hplain.
Defined.

(** The call the desk controller makes when a validation finds an expired
    session: [logger.warn(message, { particular, deskId })]. *)
Lemma object_call_labels_witness :
  exists record,
    logMethod (JStr "Desk session validation failed - session expired")
      (Some (JObj [("particular", JStr "validate_desk_session_expired");
                   ("deskId", JStr "d1")]))
      None
    = structured record
    /\ record !! "message"
       = Some (JStr "Desk session validation failed - session expired")
    /\ record !! "labels"
       = Some (JObj [("particular", JStr "validate_desk_session_expired")])
    /\ (forall k, k <> "message" -> k <> "labels" ->
          record !! k
          = assoc_field k [("particular", JStr "validate_desk_session_expired");
                           ("deskId", JStr "d1")]).
Proof.
  apply (object_call_labels
           (JStr "Desk session validation failed - session expired")
           [("particular", JStr "validate_desk_session_expired");
            ("deskId", JStr "d1")]
           None "validate_desk_session_expired");
    (reflexivity || discriminate).
Defined.

End FurtherExamples.
